(** * misconfig-ConfigPropertyCrossValidator: the validator of [src/main.py]

    A shallow embedding of [load_config], [load_compatibility_matrix] and
    [validate_config], and the properties of the specification stated over it.

    Conventions of the embedding.
    - Python [str] objects are Rocq [string]s (read as UTF-8 text).
    - The values that [json.load] and [yaml.safe_load] hand to the validator
      are the inductive type [value]; a [dict] is the list of its items in
      insertion order, keyed by strings.
    - What belongs to the Python runtime and not to the repository (float
      objects, [repr] of a [str]) is the interface [PyRuntime]; the parsers
      and the file system are arguments of the loaders.
    - Python exceptions are values of [builtin_exn] and [exn]; a call that
      may raise returns a [result]; [validate_config], which also logs, runs
      in the monad [M].

    Outside the embedding: the values only YAML can produce (dates, byte
    strings, sets, mappings with keys that are not strings), the limit
    CPython puts on the digits of an integer it converts to text, and
    [main], which only composes the three functions. *)

From Stdlib Require Import ZArith List String Ascii Bool Lia DecimalString.
Import ListNotations.
Local Open Scope string_scope.
Local Open Scope Z_scope.

Set Implicit Arguments.
Set Warnings "-register-all".


(* ================================================================== *)
(** * Python values *)

(** The part of the runtime the repository's code relies on without
    defining it.  [float_eqb] is the test [x is y or x == y] on two float
    objects (so it may hold of a NaN and itself), [int_float_eqb] is [==]
    between an [int] and a [float]. *)
Class PyRuntime : Type := {
  pyfloat : Type;
  float_eqb : pyfloat -> pyfloat -> bool;
  int_float_eqb : Z -> pyfloat -> bool;
  float_repr : pyfloat -> string;
  str_repr : string -> string
}.

Section Values.
Context {R : PyRuntime}.

Inductive value : Type :=
| VNone
| VBool (b : bool)
| VInt (z : Z)
| VFloat (f : pyfloat)
| VStr (s : string)
| VList (xs : list value)
| VDict (items : list (string * value)).

(** The Python classes of the values, as [type(v)] tells them apart. *)
Inductive pytype : Type :=
  TNoneType | TBool | TInt | TFloat | TStr | TList | TDict.

Definition type_of (v : value) : pytype :=
  match v with
  | VNone => TNoneType
  | VBool _ => TBool
  | VInt _ => TInt
  | VFloat _ => TFloat
  | VStr _ => TStr
  | VList _ => TList
  | VDict _ => TDict
  end.

(** [d.get(k)]: the value stored under key [k]. *)
Fixpoint dict_get (k : string) (items : list (string * value)) : option value :=
  match items with
  | [] => None
  | (k', v) :: rest => if String.eqb k k' then Some v else dict_get k rest
  end.

Definition dict_has (k : string) (items : list (string * value)) : bool :=
  match dict_get k items with Some _ => true | None => false end.

(** ** Equality: [x is y or x == y]

    [bool] is a subclass of [int] and the numeric classes compare by value;
    every other class equals only itself. *)
Inductive number : Type :=
| NInt (z : Z)
| NFloat (f : pyfloat).

Definition num_eqb (a b : number) : bool :=
  match a, b with
  | NInt x, NInt y => Z.eqb x y
  | NInt x, NFloat f => int_float_eqb x f
  | NFloat f, NInt x => int_float_eqb x f
  | NFloat f, NFloat g => float_eqb f g
  end.

Definition as_number (v : value) : option number :=
  match v with
  | VBool b => Some (NInt (Z.b2z b))
  | VInt z => Some (NInt z)
  | VFloat f => Some (NFloat f)
  | _ => None
  end.

Definition eq_with_number (a : number) (y : value) : bool :=
  match as_number y with
  | Some b => num_eqb a b
  | None => false
  end.

Fixpoint py_eqb (x y : value) {struct x} : bool :=
  match x with
  | VNone => match y with VNone => true | _ => false end
  | VBool b => eq_with_number (NInt (Z.b2z b)) y
  | VInt z => eq_with_number (NInt z) y
  | VFloat f => eq_with_number (NFloat f) y
  | VStr s => match y with VStr t => String.eqb s t | _ => false end
  | VList xs =>
      match y with
      | VList ys =>
          (fix list_eqb (xs ys : list value) {struct xs} : bool :=
             match xs, ys with
             | [], [] => true
             | a :: xs', b :: ys' => py_eqb a b && list_eqb xs' ys'
             | _, _ => false
             end) xs ys
      | _ => false
      end
  | VDict a =>
      match y with
      | VDict b =>
          Nat.eqb (List.length a) (List.length b) &&
          (fix items_eqb (a : list (string * value)) {struct a} : bool :=
             match a with
             | [] => true
             | (k, v) :: a' =>
                 match dict_get k b with
                 | Some w => py_eqb v w && items_eqb a'
                 | None => false
                 end
             end) a
      | _ => false
      end
  end.

(** ** [repr] and [str] *)

Definition int_repr (z : Z) : string := NilZero.string_of_int (Z.to_int z).

Definition join (sep : string) (parts : list string) : string :=
  String.concat sep parts.

Fixpoint py_repr (v : value) : string :=
  match v with
  | VNone => "None"
  | VBool b => if b then "True" else "False"
  | VInt z => int_repr z
  | VFloat f => float_repr f
  | VStr s => str_repr s
  | VList xs => "[" ++ join ", " (map py_repr xs) ++ "]"
  | VDict items =>
      "{" ++ join ", "
               (map (fun kv => str_repr (fst kv) ++ ": " ++ py_repr (snd kv))
                    items) ++ "}"
  end.

(** [str(v)], which is what an f-string field [{v}] inserts. *)
Definition py_str (v : value) : string :=
  match v with
  | VStr s => s
  | _ => py_repr v
  end.

End Values.

(* ================================================================== *)
(** * Exceptions, results and the logging monad *)

(** The exceptions of the runtime and of the two parsing libraries.  The
    classes the loaders catch are [OSError] with its two subclasses named in
    the handlers, [json.JSONDecodeError] and [yaml.YAMLError]; where the
    handler formats the exception into its message, the constructor carries
    [str(e)].  The other classes are kept apart by class only. *)
Inductive os_error : Type :=
| FileNotFoundError
| PermissionError
| OtherOSError (msg : string).

Inductive builtin_exn : Type :=
| OSError (e : os_error)
| JSONDecodeError (msg : string)
| YAMLError (msg : string)
| TypeError
| KeyError
| AttributeError
| UnicodeDecodeError
| OtherError (cls : string).

(** What the repository's functions raise: [ConfigError], the class the
    repository defines, with its message, or an exception of the runtime
    that passes through them. *)
Inductive exn : Type :=
| ConfigError (msg : string)
| Builtin (e : builtin_exn).

Inductive result (E A : Type) : Type :=
| Return (a : A)
| Raise (e : E).
Arguments Return {E A} a.
Arguments Raise {E A} e.

(** The root logger: its level, and the records its handler has written to
    the standard error stream, oldest first, as (level name, message).  The
    time stamp that the format string puts in front is left out. *)
Record logger : Type := mkLogger {
  log_level : Z;
  log_records : list (string * string)
}.

Definition DEBUG : Z := 10.
Definition INFO : Z := 20.
Definition WARNING : Z := 30.
Definition ERROR : Z := 40.

(** [logging.basicConfig(level=logging.INFO, ...)] at import time. *)
Definition basicConfig : logger := mkLogger INFO [].

(** [validate_config] raises nothing of its own: its failures are those of
    the operators it applies. *)
Definition M (A : Type) : Type := logger -> result builtin_exn A * logger.

Definition ret {A} (a : A) : M A := fun lg => (Return a, lg).

Definition raise {A} (e : builtin_exn) : M A := fun lg => (Raise e, lg).

Definition bind {A B} (m : M A) (k : A -> M B) : M B :=
  fun lg =>
    match m lg with
    | (Return a, lg') => k a lg'
    | (Raise e, lg') => (Raise e, lg')
    end.

Definition lift {A} (r : result builtin_exn A) : M A := fun lg => (r, lg).

Declare Scope py_scope.
Delimit Scope py_scope with py.
Notation "x <- m ;; k" := (bind m (fun x => k))
  (at level 61, m at next level, right associativity) : py_scope.
Notation "m ;;; k" := (bind m (fun _ => k))
  (at level 61, right associativity) : py_scope.

(** [logging.warning(msg)]: written out when WARNING is enabled for the root
    logger, dropped otherwise. *)
Definition logging_warning (msg : string) : M unit :=
  fun lg =>
    if log_level lg <=? WARNING
    then (Return tt, mkLogger (log_level lg) (log_records lg ++ [("WARNING", msg)]))
    else (Return tt, lg).

(** A [for] loop over a list that threads the loop's variable [acc]. *)
Fixpoint for_each {A B} (xs : list A) (body : A -> B -> M B) (acc : B) : M B :=
  match xs with
  | [] => ret acc
  | x :: rest => bind (body x acc) (for_each rest body)
  end.

(* ================================================================== *)
(** * The operators [validate_config] applies to its arguments *)

Section Operators.
Context {R : PyRuntime}.

Definition is_substring (t s : string) : bool :=
  match String.index 0 t s with Some _ => true | None => false end.

(** [x in container]. *)
Definition py_contains (container x : value) : result builtin_exn bool :=
  match container with
  | VList xs => Return (existsb (py_eqb x) xs)
  | VDict items =>
      match x with
      | VStr k => Return (dict_has k items)
      | VList _ | VDict _ => Raise TypeError        (* unhashable *)
      | _ => Return false
      end
  | VStr s =>
      match x with
      | VStr t => Return (is_substring t s)
      | _ => Raise TypeError
      end
  | _ => Raise TypeError                             (* not iterable *)
  end.

(** [container[key]] for a [str] key. *)
Definition py_getitem (container : value) (key : string)
  : result builtin_exn value :=
  match container with
  | VDict items =>
      match dict_get key items with
      | Some v => Return v
      | None => Raise KeyError
      end
  | _ => Raise TypeError
  end.

(** [m.items()]. *)
Definition py_items (m : value) : result builtin_exn (list (string * value)) :=
  match m with
  | VDict items => Return items
  | _ => Raise AttributeError
  end.

(* ================================================================== *)
(** * [validate_config] *)

(** The two f-strings of the function. *)
Definition incompatible_text (property_name : string)
    (actual_value expected_values : value) : string :=
  "Property '" ++ property_name ++ "' has incompatible value '" ++
  py_str actual_value ++ "'. Allowed values: " ++ py_str expected_values.

Definition missing_text (property_name : string) : string :=
  "Property '" ++ property_name ++ "' is missing from the configuration.".

Local Open Scope py_scope.

Definition validate_property (config_data : value)
    (item : string * value) (issues : list string) : M (list string) :=
  let property_name := fst item in
  let expected_values := snd item in
  present <- lift (py_contains config_data (VStr property_name)) ;;
  if present : bool then
    actual_value <- lift (py_getitem config_data property_name) ;;
    allowed <- lift (py_contains expected_values actual_value) ;;
    if negb allowed then
      let issues := (issues ++ [incompatible_text property_name actual_value expected_values])%list in
      logging_warning (incompatible_text property_name actual_value expected_values) ;;;
      ret issues
    else ret issues
  else
    let issues := (issues ++ [missing_text property_name])%list in
    logging_warning (missing_text property_name) ;;;
    ret issues.

Definition validate_config (config_data compatibility_matrix : value)
  : M (list string) :=
  items <- lift (py_items compatibility_matrix) ;;
  for_each items (validate_property config_data) [].

End Operators.

(* ================================================================== *)
(** * Paths: [os.path.splitext] and [str.lower] *)

Local Open Scope char_scope.

(** [s.rfind(c)]: the highest index of [c] in [s], or -1. *)
Fixpoint rfind_from (c : ascii) (s : string) (i last : Z) : Z :=
  match s with
  | EmptyString => last
  | String a s' => rfind_from c s' (i + 1) (if Ascii.eqb a c then i else last)
  end.

Definition rfind (c : ascii) (s : string) : Z := rfind_from c s 0 (-1).

(** The slices [p[:i]], [p[i:]] and [p[i:i+1]] for [0 <= i]. *)
Definition slice_to (p : string) (i : Z) : string :=
  substring 0 (Z.to_nat i) p.

Definition slice_from (p : string) (i : Z) : string :=
  substring (Z.to_nat i) (String.length p - Z.to_nat i) p.

Definition slice_one (p : string) (i : Z) : string :=
  substring (Z.to_nat i) 1 p.

(** The [while filenameIndex < dotIndex] loop of [genericpath._splitext];
    [n] counts the iterations that remain, [dotIndex - filenameIndex]. *)
Fixpoint splitext_scan (n : nat) (p : string) (filenameIndex dotIndex : Z)
  : string * string :=
  match n with
  | O => (p, EmptyString)
  | S n' =>
      if negb (String.eqb (slice_one p filenameIndex) ".")
      then (slice_to p dotIndex, slice_from p dotIndex)
      else splitext_scan n' p (filenameIndex + 1) dotIndex
  end.

(** [os.path.splitext(p)] of [posixpath]: separator [/], no alternative
    separator, extension separator [.]. *)
Definition splitext (p : string) : string * string :=
  let sepIndex := rfind "/" p in
  let dotIndex := rfind "." p in
  if dotIndex >? sepIndex then
    let filenameIndex := sepIndex + 1 in
    splitext_scan (Z.to_nat (dotIndex - filenameIndex)) p filenameIndex dotIndex
  else (p, EmptyString).

Definition lower_char (c : ascii) : ascii :=
  let n := nat_of_ascii c in
  if (Nat.leb 65 n && Nat.leb n 90)%bool then ascii_of_nat (n + 32) else c.

(** [s.lower()].  Only the letters A-Z are mapped; on the bytes of other
    text this differs from Python, but no character outside A-Z lowers to
    one of the characters of [.json], [.yaml] or [.yml], so the comparisons
    in [load_config] come out the same. *)
Fixpoint lower (s : string) : string :=
  match s with
  | EmptyString => EmptyString
  | String c s' => String (lower_char c) (lower s')
  end.

Local Close Scope char_scope.

(* ================================================================== *)
(** * The loaders *)

(** What reading an open text file does: the text, when the file reads to
    its end, or the exception the read raises ([UnicodeDecodeError], an
    [OSError]). *)
Definition file : Type := result builtin_exn string.

(** What [open(path, 'r')] does: the open file, or an exception. *)
Definition file_system : Type := string -> result builtin_exn file.

Section Loaders.
Context {R : PyRuntime}.

(** The two parsers, on the text of a document: the parsed value, or the
    exception the parser raises ([JSONDecodeError], [YAMLError], or
    another). *)
Variable json_loads : string -> result builtin_exn value.
Variable yaml_parse : string -> result builtin_exn value.

Variable fs : file_system.

(** [json.load(f)] is [json.loads(f.read())]. *)
Definition json_load (f : file) : result builtin_exn value :=
  match f with
  | Return text => json_loads text
  | Raise e => Raise e
  end.

(** [yaml.safe_load(f)] on a stream that reads to its end parses the text
    of the stream, and a read that raises lets its exception through.
    PyYAML reads the stream block by block while it scans: for a file that
    cannot be read to its end, [Raise e] is the exception that the read
    reached raises, and a file with a syntax error in a block before the
    one that cannot be read is outside this model. *)
Definition yaml_safe_load (f : file) : result builtin_exn value :=
  match f with
  | Return text => yaml_parse text
  | Raise e => Raise e
  end.

Definition load_config (config_file : string) : result exn value :=
  let body :=
    match fs config_file with
    | Raise e => Raise (Builtin e)
    | Return f =>
        let file_extension := lower (snd (splitext config_file)) in
        if String.eqb file_extension ".json" then
          match json_load f with
          | Raise (JSONDecodeError e) =>
              Raise (ConfigError ("Error decoding JSON in " ++ config_file ++ ": " ++ e))
          | Raise e => Raise (Builtin e)
          | Return config_data => Return config_data
          end
        else if (String.eqb file_extension ".yaml" || String.eqb file_extension ".yml")%bool then
          match yaml_safe_load f with
          | Raise (YAMLError e) =>
              Raise (ConfigError ("Error decoding YAML in " ++ config_file ++ ": " ++ e))
          | Raise e => Raise (Builtin e)
          | Return config_data => Return config_data
          end
        else Raise (ConfigError "Unsupported file type.  Must be JSON or YAML.")
    end in
  match body with
  | Raise (Builtin (OSError FileNotFoundError)) =>
      Raise (ConfigError ("Configuration file not found: " ++ config_file))
  | Raise (Builtin (OSError PermissionError)) =>
      Raise (ConfigError ("Permission denied when trying to read configuration file: "
                          ++ config_file))
  | Raise (Builtin (OSError (OtherOSError e))) =>
      Raise (ConfigError ("OS error when opening file: " ++ config_file ++ ". " ++ e))
  | config_data => config_data
  end.

Definition load_compatibility_matrix (matrix_file : string) : result exn value :=
  let body :=
    match fs matrix_file with
    | Raise e => Raise (Builtin e)
    | Return f =>
        match json_load f with
        | Raise (JSONDecodeError e) =>
            Raise (ConfigError ("Error decoding JSON in compatibility matrix file: "
                                ++ matrix_file ++ ". " ++ e))
        | Raise e => Raise (Builtin e)
        | Return matrix_data => Return matrix_data
        end
    end in
  match body with
  | Raise (Builtin (OSError FileNotFoundError)) =>
      Raise (ConfigError ("Compatibility matrix file not found: " ++ matrix_file))
  | Raise (Builtin (OSError PermissionError)) =>
      Raise (ConfigError ("Permission denied when trying to read compatibility matrix file: "
                          ++ matrix_file))
  | Raise (Builtin (OSError (OtherOSError e))) =>
      Raise (ConfigError ("OS error when opening compatibility matrix file: "
                          ++ matrix_file ++ ". " ++ e))
  | matrix_data => matrix_data
  end.

End Loaders.

(* ================================================================== *)
(** * The specification's reading of the validator

    These definitions follow the words of the specification, not the code:
    an issue is a record of one validation failure, a matrix maps property
    names to sequences of allowed values, and a property is in violation
    when it is missing from the configuration or present with a value that
    is not a member of its allowed sequence. *)

Section Specification.
Context {R : PyRuntime}.

Inductive issue : Type :=
| Missing (p : string)
| Incompatible (p : string) (v : value) (allowed : list value).

Definition issue_property (i : issue) : string :=
  match i with
  | Missing p => p
  | Incompatible p _ _ => p
  end.

Definition render (i : issue) : string :=
  match i with
  | Missing p => missing_text p
  | Incompatible p v allowed => incompatible_text p v (VList allowed)
  end.

(** A compatibility matrix, and the Python value that holds it. *)
Definition matrix : Type := list (string * list value).

Definition matrix_value (m : matrix) : value :=
  VDict (map (fun entry => (fst entry, VList (snd entry))) m).

Definition member (v : value) (allowed : list value) : bool :=
  existsb (py_eqb v) allowed.

Definition spec_issue (config : list (string * value))
    (entry : string * list value) : option issue :=
  match dict_get (fst entry) config with
  | None => Some (Missing (fst entry))
  | Some v =>
      if member v (snd entry) then None
      else Some (Incompatible (fst entry) v (snd entry))
  end.

Definition violates (config : list (string * value))
    (entry : string * list value) : bool :=
  match dict_get (fst entry) config with
  | None => true
  | Some v => negb (member v (snd entry))
  end.

Fixpoint spec_issues (config : list (string * value)) (m : matrix) : list issue :=
  match m with
  | [] => []
  | entry :: rest =>
      match spec_issue config entry with
      | Some i => i :: spec_issues config rest
      | None => spec_issues config rest
      end
  end.

(** The records that logging a list of warnings adds to the stream. *)
Definition log_warnings (msgs : list string) (lg : logger) : logger :=
  if log_level lg <=? WARNING
  then mkLogger (log_level lg)
                (log_records lg ++ map (fun msg => ("WARNING", msg)) msgs)
  else lg.

(** The shapes the specification asks of the validator's arguments. *)
Definition is_mapping (v : value) : bool :=
  match v with VDict _ => true | _ => false end.

Definition is_scalar (v : value) : bool :=
  match v with VList _ | VDict _ => false | _ => true end.

Definition is_scalar_sequence (v : value) : bool :=
  match v with VList xs => forallb is_scalar xs | _ => false end.

Definition is_matrix (v : value) : bool :=
  match v with
  | VDict items => forallb (fun kv => is_scalar_sequence (snd kv)) items
  | _ => false
  end.


Definition allowed_of (v : value) : list value :=
  match v with VList xs => xs | _ => [] end.

(** The entries of a value that satisfies [is_matrix]. *)
Definition matrix_of (v : value) : matrix :=
  match v with
  | VDict items => map (fun kv => (fst kv, allowed_of (snd kv))) items
  | _ => []
  end.

End Specification.

(** The kinds of failure the specification names for the loaders, read off
    the message of the [ConfigError]. *)
Definition unsupported_format : exn :=
  ConfigError "Unsupported file type.  Must be JSON or YAML.".

(* ================================================================== *)
(** * A concrete runtime for the scenarios

    Documents without float objects, and [repr] of a [str] as CPython
    computes it on ASCII text. *)

Definition double_quote : ascii := ascii_of_nat 34.
Definition single_quote : ascii := ascii_of_nat 39.
Definition backslash : ascii := ascii_of_nat 92.

Fixpoint has_char (c : ascii) (s : string) : bool :=
  match s with
  | EmptyString => false
  | String a s' => (Ascii.eqb a c || has_char c s')%bool
  end.

Definition hex_digit (n : nat) : ascii :=
  match String.get n "0123456789abcdef" with
  | Some c => c
  | None => ascii_of_nat 48
  end.

Definition repr_char (quote c : ascii) : string :=
  let n := nat_of_ascii c in
  if (Ascii.eqb c quote || Ascii.eqb c backslash)%bool
  then String backslash (String c EmptyString)
  else if Nat.eqb n 9 then String backslash "t"
  else if Nat.eqb n 10 then String backslash "n"
  else if Nat.eqb n 13 then String backslash "r"
  else if (Nat.ltb n 32 || Nat.eqb n 127)%bool
  then String backslash
         (String "x" (String (hex_digit (Nat.div n 16))
                        (String (hex_digit (Nat.modulo n 16)) EmptyString)))
  else String c EmptyString.

Fixpoint repr_chars (quote : ascii) (s : string) : string :=
  match s with
  | EmptyString => EmptyString
  | String c s' => repr_char quote c ++ repr_chars quote s'
  end.

Definition ascii_str_repr (s : string) : string :=
  let quote :=
    if (has_char single_quote s && negb (has_char double_quote s))%bool
    then double_quote else single_quote in
  String quote (repr_chars quote s ++ String quote EmptyString).

Definition ascii_runtime : PyRuntime := {|
  pyfloat := Empty_set;
  float_eqb := fun f _ => match f with end;
  int_float_eqb := fun _ f => match f with end;
  float_repr := fun f => match f with end;
  str_repr := ascii_str_repr
|}.

(** Stand-ins for the parsers, on the documents of the scenarios. *)
Definition sample_json_loads (text : string)
  : result builtin_exn (@value ascii_runtime) :=
  if String.eqb text "{}" then Return (VDict [])
  else if String.eqb text "8" then Return (VInt 8)
  else Raise (JSONDecodeError "Expecting value: line 1 column 1 (char 0)").

Definition sample_yaml_parse (text : string)
  : result builtin_exn (@value ascii_runtime) :=
  if String.eqb text "{}" then Return (VDict [])
  else if String.eqb text "env: prod" then Return (VDict [("env", VStr "prod")])
  else if String.eqb text "env: [prod, staging]"
  then Return (VDict [("env", VList [VStr "prod"; VStr "staging"])])
  else Raise (YAMLError "mapping values are not allowed here").

(** A file system with four files; every other path does not exist. *)
Definition sample_fs : file_system :=
  fun path =>
    if String.eqb path "conf/app.JSON" then Return (Return "{}")
    else if String.eqb path "conf/app.Yaml" then Return (Return "env: prod")
    else if String.eqb path "conf/app.YML" then Return (Return "{}")
    else if String.eqb path "matrix.yaml" then Return (Return "env: [prod, staging]")
    else if String.eqb path "notes.txt" then Return (Return "{}")
    else Raise (OSError FileNotFoundError).

(** The text that the specification quotes for a disallowed value: it ends
    in a full stop after the allowed values. *)
Definition quoted_incompatible_text {R : PyRuntime} (p : string)
    (v allowed : value) : string :=
  "Property '" ++ p ++ "' has incompatible value '" ++ py_str v ++
  "'. Allowed values: " ++ py_str allowed ++ ".".

(** The items of a value that satisfies [is_mapping]. *)
Definition dict_items {R : PyRuntime} (v : value) : list (string * value) :=
  match v with VDict items => items | _ => [] end.

(** The documents of the scenarios of the specification. *)
Definition level_config : @value ascii_runtime := VDict [("level", VStr "8")].
Definition level_matrix : @value ascii_runtime := VDict [("level", VList [VInt 8])].
Definition region_matrix : @matrix ascii_runtime := [("region", [VStr "us"; VStr "eu"])].
Definition env_config : list (string * @value ascii_runtime) :=
  [("env", VStr "prod"); ("extra", VStr "ignored")].
Definition env_matrix : @matrix ascii_runtime := [("env", [VStr "prod"; VStr "staging"])].

(** The issue texts of the scenarios. *)
Definition region_text : string :=
  "Property 'region' is missing from the configuration.".

Definition level_text : string :=
  "Property 'level' has incompatible value '8'. Allowed values: [8]".

(* ================================================================== *)
(** * [main]

    The command-line driver, from the point where [setup_argparse] has
    returned the parsed arguments.  The process is the root logger and the
    texts that [print] has been called with so far, one element for each
    call, on [sys.stdout] and on [sys.stderr]; what the handler of the root
    logger writes, which also goes to [sys.stderr], is not in [stderr] but
    in the records of [root_logger].  [sys.exit(n)] is the exit code [n]
    that [main] returns. *)

Record args : Type := mkArgs {
  config_file : string;
  compatibility_matrix : string;
  verbose : bool;
  quiet : bool
}.

Record process : Type := mkProcess {
  root_logger : logger;
  stdout : list string;
  stderr : list string
}.

(** The process as the import of the module leaves it. *)
Definition fresh_process : process := mkProcess basicConfig [] [].

(** [logging.getLogger().setLevel(level)]. *)
Definition setLevel (level : Z) (lg : logger) : logger :=
  mkLogger level (log_records lg).

(** A record of level [levelno] is written out when the level is enabled
    for the root logger. *)
Definition logging_log (levelno : Z) (levelname msg : string) (lg : logger)
  : logger :=
  if log_level lg <=? levelno
  then mkLogger (log_level lg) (log_records lg ++ [(levelname, msg)])
  else lg.

Definition logging_debug (msg : string) (lg : logger) : logger :=
  logging_log DEBUG "DEBUG" msg lg.

(** [logging.error(msg)], and [logging.exception(msg)] without the
    traceback it appends. *)
Definition logging_error (msg : string) (lg : logger) : logger :=
  logging_log ERROR "ERROR" msg lg.

Section Main.
Context {R : PyRuntime}.
Variable json_loads : string -> result builtin_exn value.
Variable yaml_parse : string -> result builtin_exn value.
Variable fs : file_system.

(** [str(e)] for the exceptions whose constructor does not carry it. *)
Variable exception_detail : builtin_exn -> string.

Definition str_of_exception (e : builtin_exn) : string :=
  match e with
  | JSONDecodeError msg => msg
  | YAMLError msg => msg
  | OSError (OtherOSError msg) => msg
  | _ => exception_detail e
  end.

Definition main (a : args) (p : process) : Z * process :=
  let lg :=
    if verbose a then
      logging_debug "Verbose logging enabled." (setLevel DEBUG (root_logger p))
    else if quiet a then
      logging_debug "Suppressing output except for errors."
                    (setLevel ERROR (root_logger p))
    else root_logger p in
  let attempt : result exn Z * process :=
    match load_config json_loads yaml_parse fs (config_file a) with
    | Raise e => (Raise e, mkProcess lg (stdout p) (stderr p))
    | Return config_data =>
        match load_compatibility_matrix json_loads fs (compatibility_matrix a) with
        | Raise e => (Raise e, mkProcess lg (stdout p) (stderr p))
        | Return matrix_data =>
            match validate_config config_data matrix_data lg with
            | (Raise e, lg') =>
                (Raise (Builtin e), mkProcess lg' (stdout p) (stderr p))
            | (Return [], lg') =>
                (Return 0,
                 mkProcess lg'
                   (if quiet a then stdout p
                    else (stdout p ++
                          ["Configuration is valid according to the compatibility matrix."])%list)
                   (stderr p))
            | (Return issues, lg') =>
                (Return 1,
                 mkProcess lg'
                   (stdout p ++ "Configuration issues found:"
                      :: map (fun issue => ("- " ++ issue)%string) issues)%list
                   (stderr p))
            end
        end
    end in
  match attempt with
  | (Return code, p') => (code, p')
  | (Raise (ConfigError msg), p') =>
      (1, mkProcess (logging_error ("Configuration error: " ++ msg) (root_logger p'))
                    (stdout p')
                    (stderr p' ++ [("Error: " ++ msg)%string])%list)
  | (Raise (Builtin e), p') =>
      (1, mkProcess (logging_error "An unexpected error occurred:" (root_logger p'))
                    (stdout p')
                    (stderr p' ++
                     [("An unexpected error occurred: " ++ str_of_exception e)%string])%list)
  end.

End Main.

(* ================================================================== *)
(** * Shapes of values used in the further properties *)

Section Shapes.
Context {R : PyRuntime}.

(** The classes that support neither [in] nor [.items()]: [None], [bool]
    and the numbers. *)
Definition is_atom (v : value) : bool :=
  match v with
  | VNone | VBool _ | VInt _ | VFloat _ => true
  | _ => false
  end.

Fixpoint distinct (keys : list string) : bool :=
  match keys with
  | [] => true
  | k :: rest => (negb (existsb (String.eqb k) rest) && distinct rest)%bool
  end.

(** A value as the parsers build it: the keys of every dict in it are
    distinct. *)
Fixpoint well_formed (v : value) : bool :=
  match v with
  | VList xs => forallb well_formed xs
  | VDict items =>
      (distinct (map fst items) &&
       forallb (fun kv => well_formed (snd kv)) items)%bool
  | _ => true
  end.

(** The number of issues a list config gives rise to is that of the
    matrix's items; the texts are the missing-property ones. *)
Definition all_missing (items : list (string * value)) : list string :=
  map (fun item => missing_text (fst item)) items.

End Shapes.

(** ** A disk

    The regular files of a directory tree, by path, and what [open] answers
    on it for a relative path without [.], [..] or links: the file; for a
    directory, [IsADirectoryError]; under a path that is a regular file,
    [NotADirectoryError]; [FileNotFoundError] otherwise.  The two errors
    of the middle are subclasses of [OSError] that [load_config] does not
    name, with the text CPython gives them. *)
Definition disk : Type := list (string * file).

Fixpoint disk_find (path : string) (d : disk) : option file :=
  match d with
  | [] => None
  | (name, f) :: rest => if String.eqb name path then Some f else disk_find path rest
  end.

(** A path exists when it is a regular file or a directory on the way to
    one. *)
Definition path_exists (d : disk) (path : string) : bool :=
  existsb (fun entry => (String.eqb (fst entry) path ||
                         prefix (path ++ "/") (fst entry))%bool) d.

Definition open_on (d : disk) : file_system :=
  fun path =>
    match disk_find path d with
    | Some f => Return f
    | None =>
        if existsb (fun entry => prefix (path ++ "/") (fst entry)) d
        then Raise (OSError (OtherOSError
                      ("[Errno 21] Is a directory: " ++ ascii_str_repr path)))
        else if existsb (fun entry => prefix (fst entry ++ "/") path) d
        then Raise (OSError (OtherOSError
                      ("[Errno 20] Not a directory: " ++ ascii_str_repr path)))
        else Raise (OSError FileNotFoundError)
    end.

(** [s.endswith(suffix)]. *)
Definition ends_with (suffix s : string) : bool :=
  (Nat.leb (String.length suffix) (String.length s) &&
   String.eqb (substring (String.length s - String.length suffix)
                         (String.length suffix) s) suffix)%bool.

(** A disk with a regular file [notes.txt] and a file named [.JSON] in the
    directory [conf]. *)
Definition sample_disk : disk :=
  [("notes.txt", Return "{}"); ("conf/.JSON", Return "{}")].

(** The root logger after [main] has dealt with the two flags: the test of
    [args.verbose] comes first, and each branch sets the level before it
    logs its debug message. *)
Definition startup_logger (a : args) (lg : logger) : logger :=
  if verbose a then
    logging_debug "Verbose logging enabled." (setLevel DEBUG lg)
  else if quiet a then
    logging_debug "Suppressing output except for errors." (setLevel ERROR lg)
  else lg.


(** Further documents for the scenarios: a matrix in JSON, a JSON document
    that is a number, and an empty YAML document, which loads as [None]. *)
Definition json_string (s : string) : string :=
  String double_quote (s ++ String double_quote EmptyString).

Definition region_json : string :=
  "{" ++ json_string "region" ++ ": [" ++ json_string "us" ++ ", " ++
  json_string "eu" ++ "]}".

Definition scenario_json_loads (text : string)
  : result builtin_exn (@value ascii_runtime) :=
  if String.eqb text region_json then Return (matrix_value region_matrix)
  else sample_json_loads text.

Definition scenario_yaml_parse (text : string)
  : result builtin_exn (@value ascii_runtime) :=
  if String.eqb text "" then Return VNone
  else sample_yaml_parse text.

Definition scenario_fs : file_system :=
  fun path =>
    if String.eqb path "region.json" then Return (Return region_json)
    else if String.eqb path "eight.json" then Return (Return "8")
    else if String.eqb path "empty.yaml" then Return (Return "")
    else if String.eqb path "conf/.yaml" then Return (Return "env: prod")
    else if String.eqb path "binary.json" then Return (Raise UnicodeDecodeError)
    else if String.eqb path "locked.json" then Raise (OSError PermissionError)
    else if String.eqb path "broken.json"
    then Return (Raise (OSError (OtherOSError "[Errno 5] Input/output error")))
    else sample_fs path.

Definition scenario_detail (e : builtin_exn) : string :=
  match e with
  | AttributeError => "'int' object has no attribute 'items'"
  | TypeError => "argument of type 'NoneType' is not iterable"
  | _ => ""
  end.

(* ================================================================== *)
(** * The validator computes the specification's issues *)

Section ValidatorFacts.
Context {R : PyRuntime}.

Lemma log_warnings_nil (lg : logger) : log_warnings [] lg = lg.
Proof.
  unfold log_warnings. destruct lg as [lvl recs]; simpl.
  destruct (lvl <=? WARNING); [rewrite app_nil_r|]; reflexivity.
Qed.

Lemma log_warnings_level (msgs : list string) (lg : logger) :
  log_level (log_warnings msgs lg) = log_level lg.
Proof. unfold log_warnings. destruct (log_level lg <=? WARNING); reflexivity. Qed.

Lemma log_warnings_cons (msg : string) (msgs : list string) (lg : logger) :
  log_warnings (msg :: msgs) lg = log_warnings msgs (log_warnings [msg] lg).
Proof.
  unfold log_warnings. destruct (log_level lg <=? WARNING) eqn:E; simpl.
  - rewrite E. simpl. rewrite <- app_assoc. reflexivity.
  - rewrite E. reflexivity.
Qed.

Lemma logging_warning_run (msg : string) (lg : logger) :
  logging_warning msg lg = (Return tt, log_warnings [msg] lg).
Proof.
  unfold logging_warning, log_warnings.
  destruct (log_level lg <=? WARNING); reflexivity.
Qed.

(** One turn of the loop on a configuration that is a [dict] and an entry
    whose allowed values are a list. *)
Lemma validate_property_run (config : list (string * value))
    (entry : string * list value) (issues : list string) (lg : logger) :
  validate_property (VDict config) (fst entry, VList (snd entry)) issues lg =
  match spec_issue config entry with
  | Some i => (Return (issues ++ [render i])%list, log_warnings [render i] lg)
  | None => (Return issues, lg)
  end.
Proof.
  destruct entry as [p allowed].
  unfold validate_property, spec_issue, bind, lift, ret, member; simpl.
  unfold dict_has. destruct (dict_get p config) as [v|]; simpl.
  - destruct (existsb (py_eqb v) allowed); simpl; [reflexivity|].
    rewrite logging_warning_run. reflexivity.
  - rewrite logging_warning_run. reflexivity.
Qed.

Lemma for_each_run (config : list (string * value)) (m : matrix) :
  forall (issues : list string) (lg : logger),
    for_each (map (fun entry => (fst entry, VList (snd entry))) m)
             (validate_property (VDict config)) issues lg =
    (Return (issues ++ map render (spec_issues config m))%list,
     log_warnings (map render (spec_issues config m)) lg).
Proof.
  induction m as [|entry rest IH]; intros issues lg; simpl.
  - rewrite app_nil_r, log_warnings_nil. reflexivity.
  - unfold bind at 1. rewrite validate_property_run.
    destruct (spec_issue config entry) as [i|]; simpl.
    + rewrite IH, <- app_assoc. simpl.
      rewrite (log_warnings_cons (render i) (map render (spec_issues config rest))).
      reflexivity.
    + apply IH.
Qed.

Lemma validate_config_run (config : list (string * value)) (m : matrix)
    (lg : logger) :
  validate_config (VDict config) (matrix_value m) lg =
  (Return (map render (spec_issues config m)),
   log_warnings (map render (spec_issues config m)) lg).
Proof.
  unfold validate_config, matrix_value, bind, lift; simpl.
  apply (for_each_run config m []).
Qed.

(** ** Facts about the specification's issues *)

Lemma spec_issue_violates (config : list (string * value))
    (entry : string * list value) :
  violates config entry = match spec_issue config entry with
                          | Some _ => true
                          | None => false
                          end.
Proof.
  unfold violates, spec_issue.
  destruct (dict_get (fst entry) config) as [v|]; [|reflexivity].
  destruct (member v (snd entry)); reflexivity.
Qed.

Lemma spec_issue_property (config : list (string * value))
    (entry : string * list value) (i : issue) :
  spec_issue config entry = Some i -> issue_property i = fst entry.
Proof.
  unfold spec_issue.
  destruct (dict_get (fst entry) config) as [v|].
  - destruct (member v (snd entry)); intros H; inversion H; reflexivity.
  - intros H; inversion H; reflexivity.
Qed.

Lemma spec_issues_length (config : list (string * value)) (m : matrix) :
  List.length (spec_issues config m) = List.length (filter (violates config) m).
Proof.
  induction m as [|entry rest IH]; simpl; [reflexivity|].
  rewrite spec_issue_violates.
  destruct (spec_issue config entry); simpl; congruence.
Qed.

Lemma spec_issues_properties (config : list (string * value)) (m : matrix) :
  map issue_property (spec_issues config m) =
  map fst (filter (violates config) m).
Proof.
  induction m as [|entry rest IH]; simpl; [reflexivity|].
  rewrite spec_issue_violates.
  destruct (spec_issue config entry) as [i|] eqn:E; simpl; [|exact IH].
  rewrite (spec_issue_property _ _ E), IH. reflexivity.
Qed.

Lemma spec_issues_app (config : list (string * value)) (m1 m2 : matrix) :
  spec_issues config (m1 ++ m2)%list =
  (spec_issues config m1 ++ spec_issues config m2)%list.
Proof.
  induction m1 as [|entry rest IH]; simpl; [reflexivity|].
  destruct (spec_issue config entry); simpl; rewrite IH; reflexivity.
Qed.

(** Filtering the entries of a matrix keeps its property names distinct. *)
Lemma violating_properties_distinct (config : list (string * value))
    (m : matrix) :
  NoDup (map fst m) -> NoDup (map fst (filter (violates config) m)).
Proof.
  intros Hkeys. induction m as [|entry rest IH]; simpl in *.
  - constructor.
  - apply NoDup_cons_iff in Hkeys. destruct Hkeys as [Hfresh Hrest].
    destruct (violates config entry); simpl; [|exact (IH Hrest)].
    apply NoDup_cons_iff. split; [|exact (IH Hrest)].
    intros Hin. apply Hfresh.
    apply in_map_iff in Hin. destruct Hin as [other [Hname Hother]].
    apply filter_In in Hother. rewrite <- Hname.
    apply in_map. exact (proj1 Hother).
Qed.

Lemma is_matrix_value (v : value) :
  is_matrix v = true -> v = matrix_value (matrix_of v).
Proof.
  destruct v; simpl; try discriminate.
  intros H. unfold matrix_value. f_equal.
  induction items as [|[k a] rest IH]; simpl in *; [reflexivity|].
  apply andb_prop in H. destruct H as [Ha Hrest].
  rewrite <- (IH Hrest). f_equal.
  destruct a; simpl in Ha; try discriminate. reflexivity.
Qed.

End ValidatorFacts.

(* ================================================================== *)
(** * Properties of [validate_config] *)

Section ValidatorClaims.
Context {R : PyRuntime}.

Lemma spec_issues_nil_iff (config : list (string * value)) (m : matrix) :
  spec_issues config m = [] <->
  (forall entry, In entry m -> violates config entry = false).
Proof.
  induction m as [|entry rest IH]; simpl.
  - split; [intros _ e []|reflexivity].
  - pose proof (spec_issue_violates config entry) as V.
    destruct (spec_issue config entry) as [i|].
    + split; [discriminate|].
      intros H. specialize (H entry (or_introl eq_refl)). congruence.
    + rewrite IH. split.
      * intros H e [<-|Hin]; auto.
      * intros H e Hin. apply H. right. exact Hin.
Qed.


(** C1.  For a configuration and a matrix whose property names are distinct
    (as the keys of a dict are), the validator returns as many issues as the
    matrix has properties that are missing from the configuration or present
    with a value outside their allowed list; the issues are about exactly
    those properties, and no property has two issues. *)
Theorem C1_issue_count (config : list (string * value)) (m : matrix)
    (lg : logger) :
  NoDup (map fst m) ->
  exists issues : list string,
    fst (validate_config (VDict config) (matrix_value m) lg) = Return issues /\
    List.length issues = List.length (filter (violates config) m) /\
    issues = map render (spec_issues config m) /\
    map issue_property (spec_issues config m) =
      map fst (filter (violates config) m) /\
    NoDup (map issue_property (spec_issues config m)) /\
    (List.length issues <= List.length m)%nat.
Proof.
  intros Hkeys. exists (map render (spec_issues config m)).
  rewrite validate_config_run; simpl.
  rewrite length_map, spec_issues_length, spec_issues_properties.
  repeat split.
  - apply violating_properties_distinct. exact Hkeys.
  - apply filter_length_le.
Qed.


(** C5.  Against the matrix that gives the property mode an empty allowed
    list, every configuration that has the property mode, whatever its
    value v, gets exactly one issue, whose text is
    [Property 'mode' has incompatible value 'v'. Allowed values: []] with
    str(v) for v; the same text is handed to the logger as a warning. *)
Theorem C5_empty_allowed_list (config : list (string * value)) (v : value)
    (lg : logger) :
  dict_get "mode" config = Some v ->
  validate_config (VDict config) (VDict [("mode", VList [])]) lg =
  (Return ["Property 'mode' has incompatible value '" ++ py_str v ++
           "'. Allowed values: []"],
   log_warnings ["Property 'mode' has incompatible value '" ++ py_str v ++
                 "'. Allowed values: []"] lg).
Proof.
  intros Hmode.
  change (VDict [("mode", VList [])]) with (matrix_value [("mode", [])]).
  rewrite validate_config_run. simpl.
  unfold spec_issue; simpl. rewrite Hmode. reflexivity.
Qed.

(** C7, as amended.  The validator returns the texts of the specification's
    issues in the order of the matrix's items: the issues of a matrix are
    those of its first items followed by those of the rest.  The text for a
    missing property p is [Property 'p' is missing from the configuration.];
    the text for a disallowed value v is
    [Property 'p' has incompatible value 'v'. Allowed values: allowed] with
    nothing after the allowed values.  The sequence does not depend on the
    state of the logger. *)
Theorem C7_order_and_text (config : list (string * value)) (m : matrix)
    (lg : logger) :
  fst (validate_config (VDict config) (matrix_value m) lg) =
    Return (map render (spec_issues config m)) /\
  (forall m1 m2,
      spec_issues config (m1 ++ m2)%list =
      (spec_issues config m1 ++ spec_issues config m2)%list) /\
  (forall entry,
      spec_issues config [entry] =
      match dict_get (fst entry) config with
      | None => [Missing (fst entry)]
      | Some v => if member v (snd entry) then []
                  else [Incompatible (fst entry) v (snd entry)]
      end) /\
  (forall p,
      render (Missing p) =
      "Property '" ++ p ++ "' is missing from the configuration.") /\
  (forall p v allowed,
      render (Incompatible p v allowed) =
      "Property '" ++ p ++ "' has incompatible value '" ++ py_str v ++
      "'. Allowed values: " ++ py_str (VList allowed)) /\
  (forall lg',
      fst (validate_config (VDict config) (matrix_value m) lg') =
      fst (validate_config (VDict config) (matrix_value m) lg)).
Proof.
  repeat split.
  - rewrite validate_config_run. reflexivity.
  - apply spec_issues_app.
  - intros entry. simpl. unfold spec_issue.
    destruct (dict_get (fst entry) config) as [v|]; [|reflexivity].
    destruct (member v (snd entry)); reflexivity.
  - intros lg'. rewrite !validate_config_run. reflexivity.
Qed.

(** C8, as amended.  On a configuration that is a mapping and a matrix that
    maps property names to sequences of scalars, the validator raises
    nothing and returns a list of issues, which is empty exactly when no
    property of the matrix is in violation.  It reads nothing; its one
    effect is that the issues it returns are also handed, in order, to the
    logger as warnings, which the logger writes out unless its level is
    above WARNING; with no issue the logger is left as it was. *)
Theorem C8_never_fails (config m : value) (lg : logger) :
  is_mapping config = true ->
  is_matrix m = true ->
  exists issues : list string,
    validate_config config m lg = (Return issues, log_warnings issues lg) /\
    (issues = [] <->
     forall entry, In entry (matrix_of m) ->
                   violates (dict_items config) entry = false) /\
    (issues = [] -> log_warnings issues lg = lg) /\
    (log_level lg <= WARNING ->
     log_records (log_warnings issues lg) =
     (log_records lg ++ map (fun msg => ("WARNING", msg)) issues)%list) /\
    (WARNING < log_level lg -> log_warnings issues lg = lg).
Proof.
  intros Hconfig Hmatrix.
  destruct config as [| | | | |?|items]; try discriminate. simpl.
  pose proof (is_matrix_value m Hmatrix) as E.
  remember (matrix_of m) as entries eqn:Hentries. rewrite E.
  exists (map render (spec_issues items entries)).
  rewrite validate_config_run. repeat split.
  - intros H. apply spec_issues_nil_iff.
    destruct (spec_issues items entries); [reflexivity|discriminate].
  - intros H. apply spec_issues_nil_iff in H. rewrite H. reflexivity.
  - intros ->. apply log_warnings_nil.
  - intros Hle. unfold log_warnings.
    apply Z.leb_le in Hle. rewrite Hle. reflexivity.
  - intros Hlt. unfold log_warnings.
    apply Z.leb_gt in Hlt. rewrite Hlt. reflexivity.
Qed.


End ValidatorClaims.

(* ================================================================== *)
(** * Properties of the loaders *)

Section LoaderClaims.
Context {R : PyRuntime}.
Variable json_loads : string -> result builtin_exn value.
Variable yaml_parse : string -> result builtin_exn value.
Variable fs : file_system.

(** An exception that passes through a loader, or one of the messages of
    its handlers, is not the message for an unsupported file type. *)
Ltac not_unsupported :=
  unfold unsupported_format; simpl; intros Heq; inversion Heq.

(** The handlers of [load_config] leave alone what is not an [OSError]. *)
Lemma load_config_opened (config_file : string) (f : file) :
  fs config_file = Return f ->
  forall r : result exn value,
    (forall e, r <> Raise (Builtin (OSError e))) ->
    (let file_extension := lower (snd (splitext config_file)) in
     if String.eqb file_extension ".json" then
       match json_load json_loads f with
       | Raise (JSONDecodeError e) =>
           Raise (ConfigError ("Error decoding JSON in " ++ config_file ++ ": " ++ e))
       | Raise e => Raise (Builtin e)
       | Return config_data => Return config_data
       end
     else if (String.eqb file_extension ".yaml" || String.eqb file_extension ".yml")%bool then
       match yaml_safe_load yaml_parse f with
       | Raise (YAMLError e) =>
           Raise (ConfigError ("Error decoding YAML in " ++ config_file ++ ": " ++ e))
       | Raise e => Raise (Builtin e)
       | Return config_data => Return config_data
       end
     else Raise (ConfigError "Unsupported file type.  Must be JSON or YAML.")) = r ->
    load_config json_loads yaml_parse fs config_file = r.
Proof.
  intros Hopen r Hr Hbody. unfold load_config. rewrite Hopen.
  cbv zeta in Hbody. rewrite Hbody.
  destruct r as [v|[msg|[e| | | | | | |]]]; try reflexivity.
  exfalso. apply (Hr e). reflexivity.
Qed.


(** C6, as amended.  For a path that can be opened, [load_config] selects
    the parser by the lower-cased extension of the path: [.json] gives the
    value of the JSON parser on the text of the file, [.yaml] and [.yml]
    give the value of the YAML parser, a text the selected parser rejects
    gives the ConfigError for a decoding error in that format, and every
    other extension gives the ConfigError for an unsupported file type. *)
Theorem C6_extension_dispatch (config_file : string) (f : file) :
  fs config_file = Return f ->
  let file_extension := lower (snd (splitext config_file)) in
  (file_extension = ".json" ->
   (forall text v, f = Return text -> json_loads text = Return v ->
      load_config json_loads yaml_parse fs config_file = Return v) /\
   (forall text e, f = Return text -> json_loads text = Raise (JSONDecodeError e) ->
      load_config json_loads yaml_parse fs config_file =
      Raise (ConfigError ("Error decoding JSON in " ++ config_file ++ ": " ++ e)))) /\
  (file_extension = ".yaml" \/ file_extension = ".yml" ->
   (forall text v, f = Return text -> yaml_parse text = Return v ->
      load_config json_loads yaml_parse fs config_file = Return v) /\
   (forall text e, f = Return text -> yaml_parse text = Raise (YAMLError e) ->
      load_config json_loads yaml_parse fs config_file =
      Raise (ConfigError ("Error decoding YAML in " ++ config_file ++ ": " ++ e)))) /\
  (file_extension <> ".json" -> file_extension <> ".yaml" ->
   file_extension <> ".yml" ->
   load_config json_loads yaml_parse fs config_file = Raise unsupported_format).
Proof.
  intros Hopen file_extension. repeat split.
  - intros text v -> Hv. apply (load_config_opened Hopen); [discriminate|].
    fold file_extension. rewrite H. simpl. rewrite Hv. reflexivity.
  - intros text e -> He. apply (load_config_opened Hopen); [discriminate|].
    fold file_extension. rewrite H. simpl. rewrite He. reflexivity.
  - intros text v -> Hv. apply (load_config_opened Hopen); [discriminate|].
    fold file_extension. destruct H as [-> | ->]; simpl; rewrite Hv; reflexivity.
  - intros text e -> He. apply (load_config_opened Hopen); [discriminate|].
    fold file_extension. destruct H as [-> | ->]; simpl; rewrite He; reflexivity.
  - intros Hjson Hyaml Hyml.
    apply (load_config_opened Hopen); [discriminate|].
    apply String.eqb_neq in Hjson, Hyaml, Hyml.
    unfold file_extension in Hjson, Hyaml, Hyml. cbv zeta.
    rewrite Hjson, Hyaml, Hyml. reflexivity.
Qed.

(** C9, as amended.  The file is opened before the extension is looked
    at: for every path on which [open] raises [FileNotFoundError], whatever
    its extension, [load_config] raises the ConfigError that the
    configuration file was not found, and not the one for an unsupported
    file type. *)
Theorem C9_not_found_first (config_file : string) :
  fs config_file = Raise (OSError FileNotFoundError) ->
  load_config json_loads yaml_parse fs config_file =
    Raise (ConfigError ("Configuration file not found: " ++ config_file)) /\
  load_config json_loads yaml_parse fs config_file <> Raise unsupported_format.
Proof.
  intros Hopen. unfold load_config. rewrite Hopen. simpl.
  split; [reflexivity|not_unsupported].
Qed.

(** C10, as amended.  The extension that [os.path.splitext] gives is
    lower-cased before it is compared: for a path that can be opened, an
    extension that is [.json], [.yaml] or [.yml] up to the case of its
    letters (as [.JSON], [.Yaml] and [.YML] are) never gives the error for
    an unsupported file type, and a file that reads as text is handed to
    the parser of that format, whose value is returned. *)
Theorem C10_extension_case_insensitive (config_file : string) (f : file) :
  fs config_file = Return f ->
  let file_extension := snd (splitext config_file) in
  (lower file_extension = ".json" \/ lower file_extension = ".yaml" \/
   lower file_extension = ".yml" ->
   load_config json_loads yaml_parse fs config_file <> Raise unsupported_format) /\
  (lower file_extension = ".json" ->
   forall text v, f = Return text -> json_loads text = Return v ->
     load_config json_loads yaml_parse fs config_file = Return v) /\
  (lower file_extension = ".yaml" \/ lower file_extension = ".yml" ->
   forall text v, f = Return text -> yaml_parse text = Return v ->
     load_config json_loads yaml_parse fs config_file = Return v) /\
  lower ".JSON" = ".json" /\ lower ".Yaml" = ".yaml" /\ lower ".YML" = ".yml".
Proof.
  intros Hopen file_extension. repeat split.
  - intros Hext. unfold load_config. rewrite Hopen. cbv zeta.
    unfold file_extension in Hext.
    destruct Hext as [Hext | [Hext | Hext]]; rewrite Hext; simpl.
    + destruct (json_load json_loads f) as [v|[[]| | | | | | |]]; not_unsupported.
    + destruct (yaml_safe_load yaml_parse f) as [v|[[]| | | | | | |]]; not_unsupported.
    + destruct (yaml_safe_load yaml_parse f) as [v|[[]| | | | | | |]]; not_unsupported.
  - intros Hext text v -> Hv. apply (load_config_opened Hopen); [discriminate|].
    unfold file_extension in Hext. cbv zeta. rewrite Hext. simpl.
    rewrite Hv. reflexivity.
  - intros Hext text v -> Hv. apply (load_config_opened Hopen); [discriminate|].
    unfold file_extension in Hext. cbv zeta.
    destruct Hext as [Hext | Hext]; rewrite Hext; simpl; rewrite Hv; reflexivity.
Qed.

End LoaderClaims.

(* ================================================================== *)
(** * Scenarios

    The properties above at the documents of the specification's scenarios,
    on the concrete runtime [ascii_runtime], the sample parsers and the
    sample file system. *)

Section Scenarios.
#[local] Existing Instance ascii_runtime.

(** The missing-property scenario: one issue, and one warning logged. *)
Example scenario_missing_region :
  validate_config (VDict []) (matrix_value region_matrix) basicConfig =
  (Return [region_text], mkLogger INFO [("WARNING", region_text)]).
Proof. reflexivity. Qed.

(** The success scenario: no issue, the unconstrained key is ignored. *)
Example scenario_env_prod :
  validate_config (VDict env_config) (matrix_value env_matrix) basicConfig =
  (Return [], basicConfig).
Proof. reflexivity. Qed.

(** The allowed strings are shown by their [repr]. *)
Example scenario_env_dev :
  fst (validate_config (VDict [("env", VStr "dev")]) (matrix_value env_matrix)
                       basicConfig) =
  Return ["Property 'env' has incompatible value 'dev'. Allowed values: ['prod', 'staging']"].
Proof. reflexivity. Qed.

(** Outside the shapes of the specification the validator can fail: a
    configuration that is not a container, a matrix that is not a mapping,
    an allowed entry that is not a sequence. *)
Example scenario_config_none :
  fst (validate_config VNone (matrix_value env_matrix) basicConfig) = Raise TypeError.
Proof. reflexivity. Qed.

Example scenario_matrix_list :
  fst (validate_config (VDict env_config) (VList []) basicConfig) = Raise AttributeError.
Proof. reflexivity. Qed.

Example scenario_allowed_number :
  fst (validate_config (VDict env_config) (VDict [("env", VInt 3)]) basicConfig) =
  Raise TypeError.
Proof. reflexivity. Qed.

(** [os.path.splitext] on some paths; a leading dot starts no extension. *)
Example scenario_splitext :
  map splitext ["a/b.json"; ".json"; "a.b/c"; "x..yml"; "a/b.tar.GZ"] =
  [("a/b", ".json"); (".json", ""); ("a.b/c", ""); ("x.", ".yml"); ("a/b.tar", ".GZ")].
Proof. reflexivity. Qed.

Lemma C1_issue_count_witness :
  NoDup (map fst region_matrix) /\
  exists issues : list string,
    fst (validate_config (VDict []) (matrix_value region_matrix) basicConfig)
      = Return issues /\
    List.length issues = List.length (filter (violates []) region_matrix) /\
    issues = map render (spec_issues [] region_matrix) /\
    map issue_property (spec_issues [] region_matrix) =
      map fst (filter (violates []) region_matrix) /\
    NoDup (map issue_property (spec_issues [] region_matrix)) /\
    (List.length issues <= List.length region_matrix)%nat.
Proof.
  split.
  - repeat constructor. simpl. tauto.
  - apply (@C1_issue_count ascii_runtime [] region_matrix basicConfig).
    repeat constructor. simpl. tauto.
Defined.



Lemma C5_empty_allowed_list_witness :
  dict_get "mode" [("mode", VStr "x")] = Some (VStr "x") /\
  validate_config (VDict [("mode", VStr "x")]) (VDict [("mode", VList [])])
                  basicConfig =
  (Return ["Property 'mode' has incompatible value 'x'. Allowed values: []"],
   mkLogger INFO
     [("WARNING", "Property 'mode' has incompatible value 'x'. Allowed values: []")]).
Proof.
  split.
  - reflexivity.
  - apply (@C5_empty_allowed_list ascii_runtime [("mode", VStr "x")] (VStr "x")
             basicConfig).
    reflexivity.
Defined.

(** C6 as stated fails twice: a path with the extension [.toml] that does
    not exist gives the not-found error, and a path with the extension
    [.JSON], which is none of the three as written, is loaded as JSON. *)
Lemma C6_not_always_unsupported :
  snd (splitext "config.toml") = ".toml" /\
  load_config sample_json_loads sample_yaml_parse sample_fs "config.toml" =
    Raise (ConfigError "Configuration file not found: config.toml") /\
  load_config sample_json_loads sample_yaml_parse sample_fs "config.toml"
    <> Raise unsupported_format /\
  snd (splitext "conf/app.JSON") = ".JSON" /\
  load_config sample_json_loads sample_yaml_parse sample_fs "conf/app.JSON" =
    Return (VDict []).
Proof.
  repeat split. intros H. vm_compute in H. discriminate.
Qed.

Lemma C6_extension_dispatch_witness :
  sample_fs "notes.txt" = Return (Return "{}") /\
  lower (snd (splitext "notes.txt")) = ".txt" /\
  load_config sample_json_loads sample_yaml_parse sample_fs "notes.txt" =
    Raise unsupported_format.
Proof.
  split; [reflexivity|]. split; [reflexivity|].
  apply (@C6_extension_dispatch ascii_runtime sample_json_loads sample_yaml_parse
           sample_fs "notes.txt" (Return "{}")).
  - reflexivity.
  - discriminate.
  - discriminate.
  - discriminate.
Defined.

(** The text C7 quotes for a disallowed value ends in a full stop; the text
    the validator returns does not. *)
Lemma C7_no_final_full_stop :
  fst (validate_config level_config level_matrix basicConfig) = Return [level_text] /\
  fst (validate_config level_config level_matrix basicConfig) <>
  Return [quoted_incompatible_text "level" (VStr "8") (VList [VInt 8])].
Proof.
  split; [reflexivity|].
  intros H.
  apply (f_equal (fun r : result builtin_exn (list string) =>
                    match r with
                    | Return [text] => String.length text
                    | _ => O
                    end)) in H.
  vm_compute in H. discriminate.
Qed.

(** C8 as stated fails: validating writes a warning to the log stream. *)
Lemma C8_writes_to_the_log :
  validate_config (VDict []) (matrix_value region_matrix) basicConfig =
    (Return [region_text], mkLogger INFO [("WARNING", region_text)]) /\
  snd (validate_config (VDict []) (matrix_value region_matrix) basicConfig)
    <> basicConfig.
Proof.
  split; [reflexivity|]. intros H. vm_compute in H. discriminate.
Qed.

Lemma C8_never_fails_witness :
  is_mapping (VDict env_config) = true /\
  is_matrix (matrix_value env_matrix) = true /\
  exists issues : list string,
    validate_config (VDict env_config) (matrix_value env_matrix) basicConfig =
      (Return issues, log_warnings issues basicConfig) /\
    (issues = [] <->
     forall entry, In entry (matrix_of (matrix_value env_matrix)) ->
                   violates (dict_items (VDict env_config)) entry = false) /\
    (issues = [] -> log_warnings issues basicConfig = basicConfig) /\
    (log_level basicConfig <= WARNING ->
     log_records (log_warnings issues basicConfig) =
     (log_records basicConfig ++ map (fun msg => ("WARNING", msg)) issues)%list) /\
    (WARNING < log_level basicConfig -> log_warnings issues basicConfig = basicConfig).
Proof.
  split; [reflexivity|]. split; [reflexivity|].
  apply (@C8_never_fails ascii_runtime (VDict env_config) (matrix_value env_matrix)
           basicConfig); reflexivity.
Defined.

Lemma C9_not_found_first_witness :
  sample_fs "config.toml" = Raise (OSError FileNotFoundError) /\
  load_config sample_json_loads sample_yaml_parse sample_fs "config.toml" =
    Raise (ConfigError ("Configuration file not found: " ++ "config.toml")) /\
  load_config sample_json_loads sample_yaml_parse sample_fs "config.toml"
    <> Raise unsupported_format.
Proof.
  split.
  - reflexivity.
  - apply (@C9_not_found_first ascii_runtime sample_json_loads sample_yaml_parse
             sample_fs "config.toml").
    reflexivity.
Defined.

Lemma C10_extension_case_insensitive_witness :
  sample_fs "conf/app.JSON" = Return (Return "{}") /\
  lower (snd (splitext "conf/app.JSON")) = ".json" /\
  load_config sample_json_loads sample_yaml_parse sample_fs "conf/app.JSON"
    = Return (VDict []).
Proof.
  split; [reflexivity|]. split; [reflexivity|].
  destruct (@C10_extension_case_insensitive ascii_runtime sample_json_loads
              sample_yaml_parse sample_fs "conf/app.JSON" (Return "{}") eq_refl)
    as [_ [Hjson _]].
  apply (Hjson eq_refl "{}" (VDict []) eq_refl eq_refl).
Defined.

End Scenarios.

(* ================================================================== *)
(** * Further properties: paths *)

Section PathFacts.
Local Open Scope char_scope.

Lemma append_empty_r (s : string) : (s ++ EmptyString)%string = s.
Proof. induction s as [|c s IH]; simpl; congruence. Qed.

Lemma append_length (a t : string) :
  String.length (a ++ t) = (String.length a + String.length t)%nat.
Proof. induction a as [|c a IH]; simpl; congruence. Qed.

Lemma substring_whole (s : string) : substring 0 (String.length s) s = s.
Proof. induction s as [|c s IH]; simpl; congruence. Qed.

(** Cutting a string at any index and joining the two parts gives it back. *)
Lemma substring_cut (p : string) :
  forall n : nat,
    (substring 0 n p ++ substring n (String.length p - n) p)%string = p.
Proof.
  induction p as [|c p IH]; intros [|n]; simpl; try reflexivity.
  - rewrite substring_whole. reflexivity.
  - rewrite IH. reflexivity.
Qed.

Lemma substring_past (a t : string) (m : nat) :
  substring (String.length a) m (a ++ t) = substring 0 m t.
Proof. induction a as [|c a IH]; simpl; [reflexivity|exact IH]. Qed.

Lemma slice_from_append (a t : string) :
  slice_from (a ++ t) (Z.of_nat (String.length a)) = t.
Proof.
  unfold slice_from. rewrite Nat2Z.id, append_length, substring_past.
  replace (String.length a + String.length t - String.length a)%nat
    with (String.length t) by lia.
  apply substring_whole.
Qed.

(** ** [rfind] *)

Lemma rfind_from_absent (c : ascii) (s : string) :
  has_char c s = false ->
  forall i last, rfind_from c s i last = last.
Proof.
  induction s as [|x s IH]; simpl; intros H i last; [reflexivity|].
  apply orb_false_elim in H. destruct H as [Hx Hs].
  rewrite Hx. apply IH. exact Hs.
Qed.

(** When [c] occurs in [s], [s] splits at its last occurrence, which is
    what [rfind] returns. *)
Lemma rfind_from_present (c : ascii) (s : string) :
  has_char c s = true ->
  exists a b : string,
    s = (a ++ String c b)%string /\ has_char c b = false /\
    forall i last, rfind_from c s i last = i + Z.of_nat (String.length a).
Proof.
  induction s as [|x s IH]; simpl; intros H; [discriminate|].
  destruct (has_char c s) eqn:Hs.
  - destruct (IH eq_refl) as [a [b [-> [Hb Hr]]]].
    exists (String x a), b. repeat split; [exact Hb|].
    intros i last. rewrite Hr. simpl String.length. lia.
  - rewrite orb_false_r in H. apply Ascii.eqb_eq in H. subst x.
    exists EmptyString, s. repeat split; [exact Hs|].
    intros i last. rewrite Ascii.eqb_refl.
    rewrite (rfind_from_absent _ _ Hs). simpl. lia.
Qed.

Lemma rfind_from_app (c : ascii) (a t : string) :
  forall i last,
    rfind_from c (a ++ t) i last =
    rfind_from c t (i + Z.of_nat (String.length a)) (rfind_from c a i last).
Proof.
  induction a as [|x a IH]; intros i last; simpl rfind_from.
  - simpl. f_equal. lia.
  - simpl append. simpl rfind_from. rewrite IH. simpl String.length.
    f_equal. lia.
Qed.

Lemma rfind_from_lower_bound (c : ascii) (s : string) :
  forall i last, has_char c s = true -> i <= rfind_from c s i last.
Proof.
  intros i last H. destruct (rfind_from_present c s H) as [a [b [_ [_ Hr]]]].
  rewrite Hr. lia.
Qed.

Lemma rfind_at_least (c : ascii) (s : string) : -1 <= rfind c s.
Proof.
  unfold rfind. destruct (has_char c s) eqn:H.
  - pose proof (rfind_from_lower_bound c s 0 (-1) H). lia.
  - rewrite (rfind_from_absent _ _ H). lia.
Qed.

(** ** [splitext] *)

Lemma splitext_scan_cases (n : nat) (p : string) :
  forall filenameIndex dotIndex,
    splitext_scan n p filenameIndex dotIndex = (p, EmptyString) \/
    splitext_scan n p filenameIndex dotIndex =
      (slice_to p dotIndex, slice_from p dotIndex).
Proof.
  induction n as [|n IH]; intros filenameIndex dotIndex; simpl.
  - left. reflexivity.
  - destruct (negb (slice_one p filenameIndex =? ".")%string);
      [right; reflexivity|apply IH].
Qed.

Lemma splitext_cases (p : string) :
  splitext p = (p, EmptyString) \/
  (rfind "/" p < rfind "." p /\
   splitext p = (slice_to p (rfind "." p), slice_from p (rfind "." p))).
Proof.
  unfold splitext. destruct (rfind "." p >? rfind "/" p) eqn:Hcmp.
  - destruct (splitext_scan_cases
                (Z.to_nat (rfind "." p - (rfind "/" p + 1))) p
                (rfind "/" p + 1) (rfind "." p)) as [H|H].
    + left. exact H.
    + right. split; [|exact H]. apply Z.gtb_gt in Hcmp. lia.
  - left. reflexivity.
Qed.

(** The root and the extension that [os.path.splitext] returns always join
    back to the path. *)
Theorem splitext_joins (p : string) :
  (fst (splitext p) ++ snd (splitext p))%string = p.
Proof.
  destruct (splitext_cases p) as [H|[_ H]]; rewrite H; simpl.
  - apply append_empty_r.
  - unfold slice_to, slice_from. apply substring_cut.
Qed.

(** X9.  The extension is empty, or it is one dot followed by characters among
    which there is neither a dot nor a path separator. *)
Theorem splitext_extension_shape (p : string) :
  snd (splitext p) = EmptyString \/
  exists rest : string,
    snd (splitext p) = String "." rest /\
    has_char "." rest = false /\ has_char "/" rest = false.
Proof.
  destruct (splitext_cases p) as [H|[Hlt H]]; rewrite H; simpl.
  - left. reflexivity.
  - right. unfold rfind in Hlt |- *.
    destruct (has_char "." p) eqn:Hdot.
    + destruct (rfind_from_present "." p Hdot) as [a [b [-> [Hb Hr]]]].
      rewrite Hr in Hlt |- *. simpl in Hlt |- *.
      rewrite slice_from_append. exists b. repeat split; [exact Hb|].
      destruct (has_char "/" b) eqn:Hsep; [|reflexivity]. exfalso.
      rewrite rfind_from_app in Hlt. simpl in Hlt.
      pose proof (rfind_from_lower_bound "/" b
                    (Z.of_nat (String.length a) + 1)
                    (rfind_from "/" a 0 (-1)) Hsep) as Hge.
      lia.
    + exfalso. rewrite (rfind_from_absent _ _ Hdot) in Hlt.
      pose proof (rfind_at_least "/" p) as Hge. unfold rfind in Hge. lia.
Qed.

(** A file name that is a dot followed by characters without a dot, as
    [.json] or [.yaml] in any directory, has no extension. *)
Theorem splitext_dotfile (dir name : string) :
  has_char "." name = false ->
  has_char "/" name = false ->
  splitext (dir ++ String "/" (String "." name)) =
    ((dir ++ String "/" (String "." name))%string, EmptyString) /\
  splitext (String "." name) = (String "." name, EmptyString).
Proof.
  intros Hdot Hsep. split.
  - unfold splitext, rfind. rewrite !rfind_from_app. simpl.
    rewrite (rfind_from_absent _ _ Hdot), (rfind_from_absent _ _ Hsep).
    destruct (Z.of_nat (String.length dir) + 1 >? Z.of_nat (String.length dir))
      eqn:Hcmp.
    + replace (Z.of_nat (String.length dir) + 1 -
               (Z.of_nat (String.length dir) + 1)) with 0 by lia.
      reflexivity.
    + exfalso. pose proof (Zgt_cases (Z.of_nat (String.length dir) + 1)
                             (Z.of_nat (String.length dir))) as Hc.
      rewrite Hcmp in Hc. lia.
  - unfold splitext, rfind. simpl.
    rewrite (rfind_from_absent _ _ Hdot), (rfind_from_absent _ _ Hsep).
    reflexivity.
Qed.

End PathFacts.

(* ================================================================== *)
(** * Further properties: [validate_config] on arbitrary arguments *)

Section ValidatorEffects.
Context {R : PyRuntime}.

Lemma log_warnings_app (a b : list string) (lg : logger) :
  log_warnings (a ++ b) lg = log_warnings b (log_warnings a lg).
Proof.
  revert lg. induction a as [|msg a IH]; intros lg; simpl.
  - rewrite log_warnings_nil. reflexivity.
  - rewrite (log_warnings_cons msg (a ++ b)), (log_warnings_cons msg a).
    apply IH.
Qed.

(** One turn of the loop, whatever the configuration and the item: the
    outcome does not depend on the logger, at most one warning is logged,
    and a returned list is the old one followed by what was logged. *)
Lemma validate_property_effect (config_data : value) (item : string * value)
    (issues : list string) :
  exists (r : result builtin_exn (list string)) (msgs : list string),
    (forall lg, validate_property config_data item issues lg =
                (r, log_warnings msgs lg)) /\
    (forall out, r = Return out -> out = (issues ++ msgs)%list).
Proof.
  unfold validate_property, bind, lift, ret.
  destruct (py_contains config_data (VStr (fst item))) as [[|]|e].
  - destruct (py_getitem config_data (fst item)) as [v|e].
    + destruct (py_contains (snd item) v) as [[|]|e]; simpl.
      * exists (Return issues), []. split.
        -- intros lg. rewrite log_warnings_nil. reflexivity.
        -- intros out H. inversion H. rewrite app_nil_r. reflexivity.
      * exists (Return (issues ++ [incompatible_text (fst item) v (snd item)])%list),
               [incompatible_text (fst item) v (snd item)]. split.
        -- intros lg. rewrite logging_warning_run. reflexivity.
        -- intros out H. inversion H. reflexivity.
      * exists (Raise e), []. split.
        -- intros lg. rewrite log_warnings_nil. reflexivity.
        -- intros out H. discriminate.
    + exists (Raise e), []. split.
      * intros lg. rewrite log_warnings_nil. reflexivity.
      * intros out H. discriminate.
  - exists (Return (issues ++ [missing_text (fst item)])%list),
           [missing_text (fst item)]. split.
    + intros lg. rewrite logging_warning_run. reflexivity.
    + intros out H. inversion H. reflexivity.
  - exists (Raise e), []. split.
    + intros lg. rewrite log_warnings_nil. reflexivity.
    + intros out H. discriminate.
Qed.

Lemma for_each_effect (config_data : value) (items : list (string * value)) :
  forall issues : list string,
  exists (r : result builtin_exn (list string)) (msgs : list string),
    (forall lg, for_each items (validate_property config_data) issues lg =
                (r, log_warnings msgs lg)) /\
    (forall out, r = Return out -> out = (issues ++ msgs)%list).
Proof.
  induction items as [|item rest IH]; intros issues; simpl.
  - exists (Return issues), []. split.
    + intros lg. unfold ret. rewrite log_warnings_nil. reflexivity.
    + intros out H. inversion H. rewrite app_nil_r. reflexivity.
  - destruct (validate_property_effect config_data item issues)
      as [r [msgs [Hrun Hout]]].
    destruct r as [issues'|e].
    + destruct (IH issues') as [r' [msgs' [Hrun' Hout']]].
      exists r', (msgs ++ msgs')%list. split.
      * intros lg. unfold bind. rewrite Hrun, Hrun', log_warnings_app. reflexivity.
      * intros out H. rewrite (Hout' out H), (Hout issues' eq_refl).
        rewrite app_assoc. reflexivity.
    + exists (Raise e), msgs. split.
      * intros lg. unfold bind. rewrite Hrun. reflexivity.
      * intros out H. discriminate.
Qed.

(** X1.  Whatever its two arguments are, the only effect of [validate_config] is
    a run of warnings handed to the logger; its outcome does not depend on
    the logger, and when it returns, the list it returns is the list of
    messages it logged, in the same order. *)
Theorem validate_config_effect (config_data matrix_data : value) :
  exists (r : result builtin_exn (list string)) (msgs : list string),
    (forall lg, validate_config config_data matrix_data lg =
                (r, log_warnings msgs lg)) /\
    (forall issues, r = Return issues -> issues = msgs).
Proof.
  unfold validate_config, bind, lift.
  destruct (py_items matrix_data) as [items|e].
  - destruct (for_each_effect config_data items [])
      as [r [msgs [Hrun Hout]]].
    exists r, msgs. split; [exact Hrun|]. intros issues H. exact (Hout issues H).
  - exists (Raise e), []. split.
    + intros lg. rewrite log_warnings_nil. reflexivity.
    + intros issues H. discriminate.
Qed.

Lemma validate_config_level (config_data matrix_data : value) (lg : logger) :
  log_level (snd (validate_config config_data matrix_data lg)) = log_level lg.
Proof.
  destruct (validate_config_effect config_data matrix_data) as [r [msgs [H _]]].
  rewrite H. simpl. apply log_warnings_level.
Qed.

(** X2.  Under a logger whose level is above WARNING, as the quiet flag sets
    it, [validate_config] leaves the logger untouched on every input. *)
Theorem validate_config_quiet (config_data matrix_data : value) (lg : logger) :
  WARNING < log_level lg ->
  snd (validate_config config_data matrix_data lg) = lg.
Proof.
  intros Hlevel.
  destruct (validate_config_effect config_data matrix_data) as [r [msgs [H _]]].
  rewrite H. simpl. unfold log_warnings.
  apply Z.leb_gt in Hlevel. rewrite Hlevel. reflexivity.
Qed.

(** ** The loop on a prefix of the matrix *)

Lemma for_each_app {A B} (xs ys : list A) (body : A -> B -> M B) :
  forall (acc : B) (lg : logger),
    for_each (xs ++ ys) body acc lg =
    bind (for_each xs body acc) (for_each ys body) lg.
Proof.
  induction xs as [|x xs IH]; intros acc lg; simpl.
  - reflexivity.
  - unfold bind. destruct (body x acc lg) as [[acc'|e] lg'].
    + rewrite IH. reflexivity.
    + reflexivity.
Qed.

(** X3.  Two configurations that give the same value, or none, to every property
    of the matrix are validated alike: what the configuration holds under
    other names has no influence on the issues or on the log. *)
Theorem validate_config_agrees (config config' : list (string * value))
    (m : matrix) (lg : logger) :
  (forall p, In p (map fst m) -> dict_get p config = dict_get p config') ->
  validate_config (VDict config) (matrix_value m) lg =
  validate_config (VDict config') (matrix_value m) lg.
Proof.
  intros Hagree. rewrite !validate_config_run.
  assert (Hsame : spec_issues config m = spec_issues config' m).
  { induction m as [|entry rest IH]; simpl; [reflexivity|].
    unfold spec_issue. rewrite (Hagree (fst entry) (or_introl eq_refl)).
    rewrite IH; [reflexivity|].
    intros p Hp. apply Hagree. right. exact Hp. }
  rewrite Hsame. reflexivity.
Qed.

(** X4.  When no property of the matrix is in the configuration, every property
    is reported missing, in the matrix's order, and the allowed entries are
    never looked at: they need not even be sequences. *)
Theorem validate_config_all_missing (config : list (string * value))
    (items : list (string * value)) (lg : logger) :
  (forall p, In p (map fst items) -> dict_get p config = None) ->
  validate_config (VDict config) (VDict items) lg =
  (Return (all_missing items), log_warnings (all_missing items) lg).
Proof.
  intros Habsent. unfold validate_config, bind, lift. simpl.
  assert (Hloop : forall issues lg0,
             for_each items (validate_property (VDict config)) issues lg0 =
             (Return (issues ++ all_missing items)%list,
              log_warnings (all_missing items) lg0)).
  { induction items as [|item rest IH]; intros issues lg0; simpl.
    - unfold ret. rewrite app_nil_r, log_warnings_nil. reflexivity.
    - unfold bind at 1. unfold validate_property at 1, bind, lift, ret.
      simpl. unfold dict_has.
      rewrite (Habsent (fst item) (or_introl eq_refl)).
      rewrite logging_warning_run. rewrite IH.
      + rewrite <- app_assoc. simpl.
        rewrite (log_warnings_cons (missing_text (fst item))
                   (all_missing rest)). reflexivity.
      + intros p Hp. apply Habsent. right. exact Hp. }
  apply (Hloop [] lg).
Qed.

(** X5.  An allowed entry that is [None], a boolean or a number makes the
    validator raise [TypeError] when it reaches a property the configuration
    has; the issues of the properties before it have been logged by then,
    and nothing is returned. *)
Theorem validate_config_fails_midway (config : list (string * value))
    (before : matrix) (p : string) (v bad : value)
    (rest : list (string * value)) (lg : logger) :
  dict_get p config = Some v ->
  is_atom bad = true ->
  validate_config (VDict config)
    (VDict (map (fun entry => (fst entry, VList (snd entry))) before
            ++ (p, bad) :: rest)) lg =
  (Raise TypeError, log_warnings (map render (spec_issues config before)) lg).
Proof.
  intros Hp Hbad. unfold validate_config, bind at 1, lift. simpl.
  rewrite for_each_app. unfold bind at 1. rewrite for_each_run. simpl.
  unfold bind at 1. unfold validate_property, bind, lift. simpl.
  unfold dict_has. rewrite Hp.
  destruct bad; simpl in Hbad; try discriminate; reflexivity.
Qed.

End ValidatorEffects.

(* ================================================================== *)
(** * Further properties: membership *)

Section Membership.
Context {R : PyRuntime}.

Lemma substring_prefix_of_append (t b : string) :
  substring 0 (String.length t) (t ++ b) = t.
Proof.
  induction t as [|c t IH]; simpl.
  - destruct b; reflexivity.
  - rewrite IH. reflexivity.
Qed.

Lemma prefix_iff_append (t s : string) :
  prefix t s = true <-> exists b : string, s = (t ++ b)%string.
Proof.
  rewrite prefix_correct. split.
  - intros H. exists (substring (String.length t) (String.length s - String.length t) s).
    rewrite <- H at 1. symmetry. apply substring_cut.
  - intros [b ->]. apply substring_prefix_of_append.
Qed.

Lemma is_substring_step (t : string) (c : ascii) (s : string) :
  is_substring t (String c s) = (prefix t (String c s) || is_substring t s)%bool.
Proof.
  unfold is_substring.
  change (String.index 0 t (String c s))
    with (if prefix t (String c s) then Some 0%nat
          else match String.index 0 t s with
               | Some n => Some (S n)
               | None => None
               end).
  destruct (prefix t (String c s)); [reflexivity|].
  destruct (String.index 0 t s); reflexivity.
Qed.

(** [is_substring t s] holds exactly when [t] occurs in [s]. *)
Lemma is_substring_iff (t s : string) :
  is_substring t s = true <-> exists a b : string, s = (a ++ t ++ b)%string.
Proof.
  induction s as [|c s IH].
  - unfold is_substring. simpl. destruct t as [|x t]; split.
    + intros _. exists EmptyString, EmptyString. reflexivity.
    + reflexivity.
    + discriminate.
    + intros [a [b H]]. destruct a; discriminate.
  - rewrite is_substring_step. split.
    + intros H. apply orb_prop in H. destruct H as [H|H].
      * apply prefix_iff_append in H. destruct H as [b H].
        exists EmptyString, b. exact H.
      * apply IH in H. destruct H as [a [b ->]].
        exists (String c a), b. reflexivity.
    + intros [a [b H]]. apply orb_true_iff. destruct a as [|x a].
      * left. apply prefix_iff_append. exists b. exact H.
      * right. apply IH. simpl in H. inversion H. exists a, b. reflexivity.
Qed.

(** X6.  A matrix entry that is a string, not a list: a string value of the
    configuration is accepted exactly when it occurs inside that string,
    and a value that is not a string makes the validator raise
    [TypeError]. *)
Theorem validate_config_allowed_string (config : list (string * value))
    (p s : string) (v : value) (lg : logger) :
  dict_get p config = Some v ->
  (forall t, v = VStr t ->
     ((exists a b : string, s = (a ++ t ++ b)%string) ->
      validate_config (VDict config) (VDict [(p, VStr s)]) lg = (Return [], lg)) /\
     (~ (exists a b : string, s = (a ++ t ++ b)%string) ->
      validate_config (VDict config) (VDict [(p, VStr s)]) lg =
      (Return [incompatible_text p v (VStr s)],
       log_warnings [incompatible_text p v (VStr s)] lg))) /\
  (type_of v <> TStr ->
   validate_config (VDict config) (VDict [(p, VStr s)]) lg = (Raise TypeError, lg)).
Proof.
  intros Hp.
  assert (Hrun : validate_config (VDict config) (VDict [(p, VStr s)]) lg =
                 match py_contains (VStr s) v with
                 | Return true => (Return [], lg)
                 | Return false =>
                     (Return [incompatible_text p v (VStr s)],
                      log_warnings [incompatible_text p v (VStr s)] lg)
                 | Raise e => (Raise e, lg)
                 end).
  { unfold validate_config, bind, lift. simpl.
    unfold bind, validate_property, bind, lift, ret. simpl.
    unfold dict_has. rewrite Hp.
    destruct v as [| | | |t| |]; try reflexivity.
    simpl. destruct (is_substring t s); simpl; [reflexivity|].
    unfold logging_warning, log_warnings. simpl.
    destruct (log_level lg <=? WARNING); reflexivity. }
  rewrite Hrun. split.
  - intros t ->. simpl. split.
    + intros H. apply is_substring_iff in H. rewrite H. reflexivity.
    + intros H. destruct (is_substring t s) eqn:E; [|reflexivity].
      exfalso. apply H. apply is_substring_iff. exact E.
  - intros Htype. destruct v; simpl; try reflexivity.
    exfalso. apply Htype. reflexivity.
Qed.

Lemma py_eqb_string (p : string) (x : value) :
  py_eqb (VStr p) x = true <-> x = VStr p.
Proof.
  destruct x; simpl; split; try discriminate.
  - intros H. apply String.eqb_eq in H. congruence.
  - intros H. inversion H. apply String.eqb_refl.
Qed.

(** X7.  A configuration that is a list, as a YAML document that starts with a
    sequence gives: every property of the matrix is reported missing as
    long as no property name is itself an element of the list, and the
    first property whose name is an element makes the validator raise
    [TypeError]. *)
Theorem validate_config_list_config (xs : list value)
    (items : list (string * value)) (lg : logger) :
  ((forall p, In p (map fst items) -> ~ In (VStr p) xs) ->
   validate_config (VList xs) (VDict items) lg =
   (Return (all_missing items), log_warnings (all_missing items) lg)) /\
  (forall item, In (VStr (fst item)) xs ->
   validate_config (VList xs) (VDict (item :: items)) lg = (Raise TypeError, lg)).
Proof.
  assert (Hmember : forall p, existsb (py_eqb (VStr p)) xs = true <-> In (VStr p) xs).
  { intros p. rewrite existsb_exists. split.
    - intros [x [Hin Heq]]. apply py_eqb_string in Heq. congruence.
    - intros Hin. exists (VStr p). split; [exact Hin|].
      apply py_eqb_string. reflexivity. }
  split.
  - intros Habsent. unfold validate_config, bind, lift. simpl.
    assert (Hloop : forall issues lg0,
               for_each items (validate_property (VList xs)) issues lg0 =
               (Return (issues ++ all_missing items)%list,
                log_warnings (all_missing items) lg0)).
    { induction items as [|item rest IH]; intros issues lg0; simpl.
      - unfold ret. rewrite app_nil_r, log_warnings_nil. reflexivity.
      - unfold bind at 1. unfold validate_property at 1, bind, lift, ret.
        unfold py_contains.
        destruct (existsb (py_eqb (VStr (fst item))) xs) eqn:E.
        + exfalso. apply (Habsent (fst item) (or_introl eq_refl)).
          apply Hmember. exact E.
        + cbv beta iota. rewrite logging_warning_run. rewrite IH.
          * rewrite <- app_assoc. simpl.
            rewrite (log_warnings_cons (missing_text (fst item))
                       (all_missing rest)). reflexivity.
          * intros p Hp. apply Habsent. right. exact Hp. }
    apply (Hloop [] lg).
  - intros item Hin. apply Hmember in Hin.
    unfold validate_config, bind, lift, py_items, for_each.
    unfold validate_property, bind, lift, py_contains.
    rewrite Hin. reflexivity.
Qed.

(** ** A listed value is accepted *)

(** Induction on values, through the lists and dicts nested in them. *)
Lemma value_induction (P : value -> Prop) :
  P VNone ->
  (forall b, P (VBool b)) ->
  (forall z, P (VInt z)) ->
  (forall f, P (VFloat f)) ->
  (forall s, P (VStr s)) ->
  (forall xs, Forall P xs -> P (VList xs)) ->
  (forall items, Forall (fun kv => P (snd kv)) items -> P (VDict items)) ->
  forall v, P v.
Proof.
  intros HNone HBool HInt HFloat HStr HList HDict.
  fix IH 1. intros v. destruct v as [| | | | |xs|items].
  - exact HNone.
  - apply HBool.
  - apply HInt.
  - apply HFloat.
  - apply HStr.
  - apply HList. induction xs as [|x xs IHxs]; constructor; [apply IH|exact IHxs].
  - apply HDict. induction items as [|[k x] items IHitems]; constructor;
      [apply IH|exact IHitems].
Qed.

Lemma dict_get_distinct (items : list (string * value)) (k : string) (v : value) :
  distinct (map fst items) = true ->
  In (k, v) items -> dict_get k items = Some v.
Proof.
  induction items as [|[k' v'] rest IH]; simpl; intros Hd Hin; [contradiction|].
  apply andb_prop in Hd. destruct Hd as [Hfresh Hrest].
  destruct Hin as [Heq|Hin].
  - inversion Heq. rewrite String.eqb_refl. reflexivity.
  - destruct (String.eqb k k') eqn:E.
    + exfalso. apply String.eqb_eq in E. subst k'.
      apply negb_true_iff in Hfresh.
      assert (Hex : existsb (String.eqb k) (map fst rest) = true).
      { apply existsb_exists. exists k. split.
        - apply (in_map fst) in Hin. exact Hin.
        - apply String.eqb_refl. }
      congruence.
    + apply IH; assumption.
Qed.

(** In a runtime where a float object equals itself under [is or ==], every
    well-formed value equals itself. *)
Lemma py_eqb_refl :
  (forall f, float_eqb f f = true) ->
  forall v, well_formed v = true -> py_eqb v v = true.
Proof.
  intros Hfloat.
  refine (value_induction
            (P := fun v => well_formed v = true -> py_eqb v v = true)
            _ _ _ _ _ _ _).
  - intros _. reflexivity.
  - intros b _. simpl. unfold eq_with_number. simpl. apply Z.eqb_refl.
  - intros z _. simpl. unfold eq_with_number. simpl. apply Z.eqb_refl.
  - intros f _. simpl. unfold eq_with_number. simpl. apply Hfloat.
  - intros s _. simpl. apply String.eqb_refl.
  - intros xs Hall Hwf. simpl in Hwf |- *.
    induction Hall as [|x xs Hx Hall IH]; [reflexivity|].
    simpl in Hwf. apply andb_prop in Hwf. destruct Hwf as [Hwx Hwxs].
    rewrite (Hx Hwx). simpl. apply IH. exact Hwxs.
  - intros items Hall Hwf. simpl in Hwf |- *.
    apply andb_prop in Hwf. destruct Hwf as [Hkeys Hvals].
    rewrite Nat.eqb_refl. simpl.
    assert (Hsub : forall part : list (string * value),
               (forall kv, In kv part -> In kv items) ->
               Forall (fun kv => well_formed (snd kv) = true ->
                                 py_eqb (snd kv) (snd kv) = true) part ->
               forallb (fun kv => well_formed (snd kv)) part = true ->
               (fix items_eqb (a : list (string * value)) : bool :=
                  match a with
                  | [] => true
                  | (k, v) :: a' =>
                      match dict_get k items with
                      | Some w => py_eqb v w && items_eqb a'
                      | None => false
                      end
                  end) part = true).
    { induction part as [|[k v] part IHpart]; intros Hin Hp Hw; [reflexivity|].
      inversion Hp as [|? ? Hv Hrest]; subst.
      simpl in Hw. apply andb_prop in Hw. destruct Hw as [Hwv Hwrest].
      rewrite (dict_get_distinct items k v Hkeys (Hin (k, v) (or_introl eq_refl))).
      simpl in Hv. rewrite (Hv Hwv). simpl.
      apply IHpart; [|exact Hrest|exact Hwrest].
      intros kv Hkv. apply Hin. right. exact Hkv. }
    apply Hsub; [auto|exact Hall|exact Hvals].
Qed.

(** X8.  A value that stands in the allowed list of its property is accepted:
    for a well-formed value the property gets no issue. *)
Theorem validate_config_listed_value (config : list (string * value))
    (p : string) (v : value) (allowed : list value) (lg : logger) :
  (forall f, float_eqb f f = true) ->
  well_formed v = true ->
  dict_get p config = Some v ->
  In v allowed ->
  validate_config (VDict config) (matrix_value [(p, allowed)]) lg = (Return [], lg).
Proof.
  intros Hfloat Hwf Hp Hin. rewrite validate_config_run. simpl.
  unfold spec_issue. simpl. rewrite Hp.
  assert (Hmember : member v allowed = true).
  { unfold member. apply existsb_exists. exists v. split; [exact Hin|].
    apply py_eqb_refl; assumption. }
  rewrite Hmember. simpl. rewrite log_warnings_nil. reflexivity.
Qed.

End Membership.

(* ================================================================== *)
(** * Further properties: the loaders *)

Section LoaderFacts.
Context {R : PyRuntime}.
Variable json_loads : string -> result builtin_exn value.
Variable yaml_parse : string -> result builtin_exn value.
Variable fs : file_system.

(** The lower-cased extensions [load_config] accepts. *)
Let supported (config_file : string) : Prop :=
  lower (snd (splitext config_file)) = ".json" \/
  lower (snd (splitext config_file)) = ".yaml" \/
  lower (snd (splitext config_file)) = ".yml".

(** X12.  [load_compatibility_matrix] returns a value exactly when the file opens,
    reads as text, and the JSON parser returns that value on the text. *)
Theorem load_compatibility_matrix_returns (matrix_file : string) (v : value) :
  load_compatibility_matrix json_loads fs matrix_file = Return v <->
  exists text : string,
    fs matrix_file = Return (Return text) /\ json_loads text = Return v.
Proof.
  unfold load_compatibility_matrix. split.
  - destruct (fs matrix_file) as [[text|e]|e]; simpl.
    + destruct (json_loads text) as [w|[[]| | | | | | |]] eqn:E;
        intros H; try discriminate.
      inversion H. subst w. exists text. split; [reflexivity|exact E].
    + destruct e as [[]| | | | | | |]; discriminate.
    + destruct e as [[]| | | | | | |]; discriminate.
  - intros [text [Hopen Hparse]]. rewrite Hopen. simpl. rewrite Hparse. reflexivity.
Qed.

(** X11.  [load_config] returns a value exactly when the file opens, reads as
    text, and the parser that the lower-cased extension selects returns
    that value on the text. *)
Theorem load_config_returns (config_file : string) (v : value) :
  load_config json_loads yaml_parse fs config_file = Return v <->
  exists text : string,
    fs config_file = Return (Return text) /\
    ((lower (snd (splitext config_file)) = ".json" /\
      json_loads text = Return v) \/
     ((lower (snd (splitext config_file)) = ".yaml" \/
       lower (snd (splitext config_file)) = ".yml") /\
      yaml_parse text = Return v)).
Proof.
  unfold load_config. split.
  - destruct (fs config_file) as [[text|e]|e]; simpl.
    + destruct (String.eqb (lower (snd (splitext config_file))) ".json") eqn:Ejson.
      * destruct (json_loads text) as [w|[[]| | | | | | |]] eqn:E;
          intros H; try discriminate.
        inversion H. subst w. exists text. split; [reflexivity|].
        left. split; [apply String.eqb_eq; exact Ejson|exact E].
      * destruct (String.eqb (lower (snd (splitext config_file))) ".yaml"
                  || String.eqb (lower (snd (splitext config_file))) ".yml")%bool
          eqn:Eyaml.
        -- destruct (yaml_parse text) as [w|[[]| | | | | | |]] eqn:E;
             intros H; try discriminate.
           inversion H. subst w. exists text. split; [reflexivity|].
           right. split; [|exact E].
           apply orb_prop in Eyaml.
           destruct Eyaml as [Ey|Ey]; apply String.eqb_eq in Ey; auto.
        -- discriminate.
    + destruct (String.eqb (lower (snd (splitext config_file))) ".json").
      * destruct e as [[]| | | | | | |]; discriminate.
      * destruct (String.eqb (lower (snd (splitext config_file))) ".yaml"
                  || String.eqb (lower (snd (splitext config_file))) ".yml")%bool.
        -- destruct e as [[]| | | | | | |]; discriminate.
        -- discriminate.
    + destruct e as [[]| | | | | | |]; discriminate.
  - intros [text [Hopen Hparse]]. rewrite Hopen. simpl.
    destruct Hparse as [[Hext Hv]|[Hext Hv]].
    + rewrite Hext. simpl. rewrite Hv. reflexivity.
    + destruct Hext as [Hext|Hext]; rewrite Hext; simpl; rewrite Hv; reflexivity.
Qed.

(** X13.  On a path whose extension is [.json] up to case, the two loaders
    return the same values: one returns a value exactly when the other
    returns it. *)
Theorem loaders_agree_on_json (path : string) (v : value) :
  lower (snd (splitext path)) = ".json" ->
  (load_config json_loads yaml_parse fs path = Return v <->
   load_compatibility_matrix json_loads fs path = Return v).
Proof.
  intros Hext. rewrite load_config_returns, load_compatibility_matrix_returns.
  split.
  - intros [text [Hopen [[_ Hv]|[[Hy|Hy] _]]]].
    + exists text. split; assumption.
    + rewrite Hext in Hy. discriminate.
    + rewrite Hext in Hy. discriminate.
  - intros [text [Hopen Hv]]. exists text. split; [exact Hopen|].
    left. split; assumption.
Qed.

(** X15.  No [OSError] leaves [load_compatibility_matrix], whether it comes from
    opening the file, from reading it or from the parser; and once the file
    is open no JSON decoding error leaves it either: each is turned into a
    [ConfigError]. *)
Theorem load_compatibility_matrix_wraps (matrix_file : string) :
  (forall e, load_compatibility_matrix json_loads fs matrix_file
             <> Raise (Builtin (OSError e))) /\
  (forall f, fs matrix_file = Return f ->
   forall msg, load_compatibility_matrix json_loads fs matrix_file
               <> Raise (Builtin (JSONDecodeError msg))).
Proof.
  unfold load_compatibility_matrix. split.
  - intros x. destruct (fs matrix_file) as [f|e]; simpl.
    + destruct (json_load json_loads f) as [w|[[]| | | | | | |]]; discriminate.
    + destruct e as [[]| | | | | | |]; discriminate.
  - intros f Hopen msg. rewrite Hopen. simpl.
    destruct (json_load json_loads f) as [w|[[]| | | | | | |]]; discriminate.
Qed.

(** X14.  No [OSError] leaves [load_config]; and once the file is open, neither
    does a JSON decoding error on a path with the extension [.json], nor a
    YAML error on a path with the extension [.yaml] or [.yml]. *)
Theorem load_config_wraps (config_file : string) :
  (forall e, load_config json_loads yaml_parse fs config_file
             <> Raise (Builtin (OSError e))) /\
  (forall f, fs config_file = Return f ->
   (lower (snd (splitext config_file)) = ".json" ->
    forall msg, load_config json_loads yaml_parse fs config_file
                <> Raise (Builtin (JSONDecodeError msg))) /\
   (lower (snd (splitext config_file)) = ".yaml" \/
    lower (snd (splitext config_file)) = ".yml" ->
    forall msg, load_config json_loads yaml_parse fs config_file
                <> Raise (Builtin (YAMLError msg)))).
Proof.
  unfold load_config. split.
  - intros x. destruct (fs config_file) as [f|e]; simpl.
    + destruct (String.eqb (lower (snd (splitext config_file))) ".json").
      * destruct (json_load json_loads f) as [w|[[]| | | | | | |]]; discriminate.
      * destruct (String.eqb (lower (snd (splitext config_file))) ".yaml"
                  || String.eqb (lower (snd (splitext config_file))) ".yml")%bool.
        -- destruct (yaml_safe_load yaml_parse f) as [w|[[]| | | | | | |]];
             discriminate.
        -- discriminate.
    + destruct e as [[]| | | | | | |]; discriminate.
  - intros f Hopen. rewrite Hopen. split.
    + intros Hext msg. rewrite Hext. simpl.
      destruct (json_load json_loads f) as [w|[[]| | | | | | |]]; discriminate.
    + intros Hext msg.
      destruct Hext as [Hext|Hext]; rewrite Hext; simpl;
        destruct (yaml_safe_load yaml_parse f) as [w|[[]| | | | | | |]];
        discriminate.
Qed.

(** X16.  An [OSError] raised while the open file is read is reported exactly as
    the same error raised by [open]: the matrix loader cannot tell the two
    apart, and [load_config] cannot either on a supported extension. *)
Theorem read_failure_reported_as_open_failure (path : string) (e : os_error) :
  fs path = Return (Raise (OSError e)) ->
  load_compatibility_matrix json_loads fs path =
    load_compatibility_matrix json_loads (fun _ => Raise (OSError e)) path /\
  (supported path ->
   load_config json_loads yaml_parse fs path =
   load_config json_loads yaml_parse (fun _ => Raise (OSError e)) path).
Proof.
  intros Hread. split.
  - unfold load_compatibility_matrix. rewrite Hread. destruct e; reflexivity.
  - unfold supported, load_config. rewrite Hread.
    intros [Hext|[Hext|Hext]]; rewrite Hext; destruct e; reflexivity.
Qed.

(** X10.  A file whose name is a dot followed by characters without a dot, as
    [.json] or [.yaml] in some directory, is refused as an unsupported file
    type once it has been opened, whatever it contains. *)
Theorem load_config_dotfile (dir name : string) (f : file) :
  has_char "." name = false ->
  has_char "/" name = false ->
  fs (dir ++ String "/" (String "." name)) = Return f ->
  load_config json_loads yaml_parse fs (dir ++ String "/" (String "." name)) =
  Raise unsupported_format.
Proof.
  intros Hdot Hsep Hopen.
  destruct (splitext_dotfile dir name Hdot Hsep) as [Hsplit _].
  unfold load_config. rewrite Hopen, Hsplit. reflexivity.
Qed.

End LoaderFacts.

(* ================================================================== *)
(** * Further properties: [main] *)

Section MainFacts.
Context {R : PyRuntime}.
Variable json_loads : string -> result builtin_exn value.
Variable yaml_parse : string -> result builtin_exn value.
Variable fs : file_system.
Variable exception_detail : builtin_exn -> string.

Let run : args -> process -> Z * process :=
  main json_loads yaml_parse fs exception_detail.

Let loaded_config (a : args) : result exn value :=
  load_config json_loads yaml_parse fs (config_file a).

Let loaded_matrix (a : args) : result exn value :=
  load_compatibility_matrix json_loads fs (compatibility_matrix a).

Lemma logging_log_level (levelno : Z) (levelname msg : string) (lg : logger) :
  log_level (logging_log levelno levelname msg lg) = log_level lg.
Proof. unfold logging_log. destruct (log_level lg <=? levelno); reflexivity. Qed.

Lemma startup_logger_level (a : args) (lg : logger) :
  log_level (startup_logger a lg) =
  if verbose a then DEBUG else if quiet a then ERROR else log_level lg.
Proof.
  unfold startup_logger, logging_debug.
  destruct (verbose a); [apply logging_log_level|].
  destruct (quiet a); [apply logging_log_level|reflexivity].
Qed.



(** X18.  The exit code of [main] is 0 or 1, and it is 0 exactly when both files
    load and the validator returns the empty list. *)
Theorem main_exit_code (a : args) (p : process) :
  (fst (run a p) = 0 \/ fst (run a p) = 1) /\
  (fst (run a p) = 0 <->
   exists c m : value,
     loaded_config a = Return c /\ loaded_matrix a = Return m /\
     fst (validate_config c m basicConfig) = Return []).
Proof.
  unfold loaded_config, loaded_matrix, run, main. cbv zeta.
  destruct (load_config json_loads yaml_parse fs (config_file a)) as [c|[msg|e]].
  - destruct (load_compatibility_matrix json_loads fs (compatibility_matrix a))
      as [m|[msg|e]].
    + destruct (validate_config_effect c m) as [r [msgs [Hrun Hout]]].
      rewrite Hrun. destruct r as [[|i issues]|e]; simpl.
      * split; [left; reflexivity|]. split; [|reflexivity].
        intros _. exists c, m. rewrite Hrun. repeat split.
      * split; [right; reflexivity|]. split; [discriminate|].
        intros [c' [m' [Hc [Hm Hv]]]]. inversion Hc. inversion Hm. subst c' m'.
        rewrite Hrun in Hv. discriminate.
      * split; [right; reflexivity|]. split; [discriminate|].
        intros [c' [m' [Hc [Hm Hv]]]]. inversion Hc. inversion Hm. subst c' m'.
        rewrite Hrun in Hv. discriminate.
    + simpl. split; [right; reflexivity|]. split; [discriminate|].
      intros [c' [m' [_ [Hm _]]]]. discriminate.
    + simpl. split; [right; reflexivity|]. split; [discriminate|].
      intros [c' [m' [_ [Hm _]]]]. discriminate.
  - simpl. split; [right; reflexivity|]. split; [discriminate|].
    intros [c' [m' [Hc _]]]. discriminate.
  - simpl. split; [right; reflexivity|]. split; [discriminate|].
    intros [c' [m' [Hc _]]]. discriminate.
Qed.



(** X20.  The verbose flag wins over the quiet flag: on every run the root
    logger ends at level DEBUG when verbose is set, at level ERROR when
    only quiet is set, and at the level it had otherwise. *)
Theorem main_log_level (a : args) (p : process) :
  log_level (root_logger (snd (run a p))) =
  if verbose a then DEBUG
  else if quiet a then ERROR
  else log_level (root_logger p).
Proof.
  rewrite <- startup_logger_level.
  unfold run, main, startup_logger. cbv zeta.
  destruct (load_config json_loads yaml_parse fs (config_file a)) as [c|[msg|e]].
  - destruct (load_compatibility_matrix json_loads fs (compatibility_matrix a))
      as [m|[msg|e]]; try (simpl; apply logging_log_level).
    match goal with
    | |- context [validate_config c m ?lg] =>
        pose proof (validate_config_level c m lg) as Hlevel;
        destruct (validate_config c m lg) as [[[|i issues]|e] lg']
    end; simpl in Hlevel |- *;
      try exact Hlevel.
    unfold logging_error. rewrite logging_log_level. exact Hlevel.
  - simpl. apply logging_log_level.
  - simpl. apply logging_log_level.
Qed.

(** X21.  A configuration file that cannot be loaded ends the run before the
    matrix file is touched: exit code 1, the message on the standard error
    after [Error: ], nothing on the standard output, and the same run
    whatever the matrix argument is. *)
Theorem main_config_error (a : args) (p : process) (msg : string) :
  loaded_config a = Raise (ConfigError msg) ->
  run a p =
  (1, mkProcess
        (logging_error ("Configuration error: " ++ msg)
                       (startup_logger a (root_logger p)))
        (stdout p)
        (stderr p ++ [("Error: " ++ msg)%string])%list) /\
  (forall other : string,
      run (mkArgs (config_file a) other (verbose a) (quiet a)) p = run a p).
Proof.
  unfold loaded_config, run. intros Hc. split.
  - unfold main. rewrite Hc. reflexivity.
  - intros other. unfold main. simpl. rewrite Hc. reflexivity.
Qed.

(** X22.  A matrix file that cannot be loaded ends the run before validation:
    exit code 1, the message on the standard error, nothing on the standard
    output, and no warning in the log. *)
Theorem main_matrix_error (a : args) (p : process) (c : value) (msg : string) :
  loaded_config a = Return c ->
  loaded_matrix a = Raise (ConfigError msg) ->
  run a p =
  (1, mkProcess
        (logging_error ("Configuration error: " ++ msg)
                       (startup_logger a (root_logger p)))
        (stdout p)
        (stderr p ++ [("Error: " ++ msg)%string])%list).
Proof.
  unfold loaded_config, loaded_matrix, run. intros Hc Hm.
  unfold main. rewrite Hc, Hm. reflexivity.
Qed.

(** X23.  Loaded documents of the wrong shape end the run as an unexpected
    error, with exit code 1 and nothing on the standard output: a matrix
    that is not a mapping, and a configuration that is [None], a boolean or
    a number when the matrix has at least one property. *)
Theorem main_wrong_shape (a : args) (p : process) (c m : value) :
  loaded_config a = Return c ->
  loaded_matrix a = Return m ->
  (is_mapping m = false ->
   run a p =
   (1, mkProcess
         (logging_error "An unexpected error occurred:"
                        (startup_logger a (root_logger p)))
         (stdout p)
         (stderr p ++ [("An unexpected error occurred: " ++
                        exception_detail AttributeError)%string])%list)) /\
  (is_atom c = true ->
   forall item rest, m = VDict (item :: rest) ->
   run a p =
   (1, mkProcess
         (logging_error "An unexpected error occurred:"
                        (startup_logger a (root_logger p)))
         (stdout p)
         (stderr p ++ [("An unexpected error occurred: " ++
                        exception_detail TypeError)%string])%list)).
Proof.
  unfold loaded_config, loaded_matrix, run. intros Hc Hm. split.
  - intros Hshape. unfold main. rewrite Hc, Hm.
    destruct m; simpl in Hshape; try discriminate; reflexivity.
  - intros Hatom item rest ->. unfold main. rewrite Hc, Hm.
    destruct c; simpl in Hatom; try discriminate; reflexivity.
Qed.

(** X24.  With a matrix that has no property the run succeeds with exit code 0
    whatever the configuration file holds, even a document that is not a
    mapping. *)
Theorem main_empty_matrix (a : args) (p : process) (c : value) :
  loaded_config a = Return c ->
  loaded_matrix a = Return (VDict []) ->
  run a p =
  (0, mkProcess
        (startup_logger a (root_logger p))
        (if quiet a then stdout p
         else (stdout p ++
               ["Configuration is valid according to the compatibility matrix."])%list)
        (stderr p)).
Proof.
  unfold loaded_config, loaded_matrix, run. intros Hc Hm.
  unfold main. rewrite Hc, Hm. reflexivity.
Qed.


(** X26.  A configuration file with the extension [.json], in any case,
    that opens but cannot be decoded as text is not reported as a
    configuration error: the [UnicodeDecodeError] of [f.read()] passes
    through [load_config], and [main] reports an unexpected error. *)
Theorem main_undecodable_config (a : args) (p : process) :
  fs (config_file a) = Return (Raise UnicodeDecodeError) ->
  lower (snd (splitext (config_file a))) = ".json" ->
  loaded_config a = Raise (Builtin UnicodeDecodeError) /\
  run a p =
  (1, mkProcess
        (logging_error "An unexpected error occurred:"
                       (startup_logger a (root_logger p)))
        (stdout p)
        (stderr p ++ [("An unexpected error occurred: " ++
                       exception_detail UnicodeDecodeError)%string])%list).
Proof.
  intros Hread Hext.
  assert (Hc : loaded_config a = Raise (Builtin UnicodeDecodeError)).
  { unfold loaded_config, load_config. rewrite Hread, Hext. reflexivity. }
  split; [exact Hc|].
  unfold loaded_config in Hc. unfold run, main. rewrite Hc. reflexivity.
Qed.

End MainFacts.

(* ================================================================== *)
(** * The further properties at the scenarios *)

Section FurtherScenarios.
#[local] Existing Instance ascii_runtime.

Let run : args -> process -> Z * process :=
  main scenario_json_loads scenario_yaml_parse scenario_fs scenario_detail.

Lemma load_config_dotfile_witness :
  has_char "."%char "yaml" = false /\
  has_char "/"%char "yaml" = false /\
  scenario_fs "conf/.yaml" = Return (Return "env: prod") /\
  load_config scenario_json_loads scenario_yaml_parse scenario_fs "conf/.yaml" =
    Raise unsupported_format.
Proof.
  split; [reflexivity|].
  split; [reflexivity|].
  split; [reflexivity|].
  exact (@load_config_dotfile ascii_runtime scenario_json_loads scenario_yaml_parse
           scenario_fs "conf" "yaml" (Return "env: prod") eq_refl eq_refl eq_refl).
Defined.

Lemma validate_config_quiet_witness :
  WARNING < log_level (mkLogger ERROR []) /\
  snd (validate_config (VDict []) (matrix_value region_matrix) (mkLogger ERROR []))
    = mkLogger ERROR [].
Proof.
  split; [reflexivity|].
  apply (@validate_config_quiet ascii_runtime (VDict []) (matrix_value region_matrix)
           (mkLogger ERROR [])).
  reflexivity.
Defined.

Lemma validate_config_agrees_witness :
  (forall p, In p (map fst env_matrix) ->
             dict_get p env_config = dict_get p [("env", VStr "prod")]) /\
  validate_config (VDict env_config) (matrix_value env_matrix) basicConfig =
  validate_config (VDict [("env", VStr "prod")]) (matrix_value env_matrix) basicConfig.
Proof.
  assert (H : forall p, In p (map fst env_matrix) ->
                        dict_get p env_config = dict_get p [("env", VStr "prod")]).
  { intros p [<-|[]]. reflexivity. }
  split; [exact H|].
  exact (@validate_config_agrees ascii_runtime env_config [("env", VStr "prod")]
           env_matrix basicConfig H).
Defined.

Lemma validate_config_all_missing_witness :
  (forall p, In p (map fst [("region", @VInt ascii_runtime 3)]) ->
             @dict_get ascii_runtime p [] = None) /\
  validate_config (VDict []) (VDict [("region", VInt 3)]) basicConfig =
  (Return (all_missing [("region", @VInt ascii_runtime 3)]),
   log_warnings (all_missing [("region", @VInt ascii_runtime 3)]) basicConfig).
Proof.
  split; [intros p _; reflexivity|].
  apply (@validate_config_all_missing ascii_runtime [] [("region", VInt 3)] basicConfig).
  intros p _. reflexivity.
Defined.

Lemma validate_config_fails_midway_witness :
  dict_get "env" [("env", @VStr ascii_runtime "prod")] = Some (VStr "prod") /\
  is_atom (@VNone ascii_runtime) = true /\
  validate_config (VDict [("env", VStr "prod")])
    (VDict (map (fun entry => (fst entry, VList (snd entry))) region_matrix
            ++ [("env", VNone)])) basicConfig =
  (Raise TypeError,
   log_warnings (map render (spec_issues [("env", VStr "prod")] region_matrix))
                basicConfig).
Proof.
  split; [reflexivity|].
  split; [reflexivity|].
  exact (@validate_config_fails_midway ascii_runtime [("env", VStr "prod")]
           region_matrix "env" (VStr "prod") VNone [] basicConfig eq_refl eq_refl).
Defined.

Lemma validate_config_allowed_string_witness :
  dict_get "env" [("env", @VStr ascii_runtime "pro")] = Some (VStr "pro") /\
  validate_config (VDict [("env", VStr "pro")]) (VDict [("env", VStr "prod")])
                  basicConfig = (Return [], basicConfig).
Proof.
  split; [reflexivity|].
  destruct (@validate_config_allowed_string ascii_runtime [("env", VStr "pro")]
              "env" "prod" (VStr "pro") basicConfig eq_refl) as [Hstring _].
  destruct (Hstring "pro" eq_refl) as [Haccepted _].
  apply Haccepted. exists "", "d". reflexivity.
Defined.

Lemma validate_config_listed_value_witness :
  (forall f : @pyfloat ascii_runtime, float_eqb f f = true) /\
  well_formed (@VStr ascii_runtime "prod") = true /\
  dict_get "env" env_config = Some (VStr "prod") /\
  In (VStr "prod") (snd ("env", [@VStr ascii_runtime "prod"; VStr "staging"])) /\
  validate_config (VDict env_config)
    (matrix_value [("env", [VStr "prod"; VStr "staging"])]) basicConfig =
  (Return [], basicConfig).
Proof.
  assert (Hfloat : forall f : @pyfloat ascii_runtime, float_eqb f f = true)
    by (intros []).
  split; [exact Hfloat|]. split; [reflexivity|]. split; [reflexivity|].
  split; [left; reflexivity|].
  apply (@validate_config_listed_value ascii_runtime env_config "env" (VStr "prod")
           [VStr "prod"; VStr "staging"] basicConfig Hfloat eq_refl eq_refl).
  left. reflexivity.
Defined.

Lemma loaders_agree_on_json_witness :
  lower (snd (splitext "conf/app.JSON")) = ".json" /\
  (load_config scenario_json_loads scenario_yaml_parse scenario_fs "conf/app.JSON"
     = Return (VDict []) <->
   load_compatibility_matrix scenario_json_loads scenario_fs "conf/app.JSON"
     = Return (VDict [])).
Proof.
  split; [reflexivity|].
  apply (@loaders_agree_on_json ascii_runtime scenario_json_loads scenario_yaml_parse
           scenario_fs "conf/app.JSON" (VDict [])).
  reflexivity.
Defined.

Lemma read_failure_reported_as_open_failure_witness :
  scenario_fs "broken.json" =
    Return (Raise (OSError (OtherOSError "[Errno 5] Input/output error"))) /\
  load_compatibility_matrix scenario_json_loads scenario_fs "broken.json" =
    Raise (ConfigError
             "OS error when opening compatibility matrix file: broken.json. [Errno 5] Input/output error") /\
  load_config scenario_json_loads scenario_yaml_parse scenario_fs "broken.json" =
    Raise (ConfigError
             "OS error when opening file: broken.json. [Errno 5] Input/output error").
Proof.
  split; [reflexivity|].
  destruct (@read_failure_reported_as_open_failure ascii_runtime scenario_json_loads
              scenario_yaml_parse scenario_fs "broken.json"
              (OtherOSError "[Errno 5] Input/output error") eq_refl)
    as [Hmatrix Hconfig].
  split.
  - rewrite Hmatrix. reflexivity.
  - rewrite Hconfig; [reflexivity|]. left. reflexivity.
Defined.


Lemma main_config_error_witness :
  load_config scenario_json_loads scenario_yaml_parse scenario_fs "config.toml" =
    Raise (ConfigError "Configuration file not found: config.toml") /\
  run (mkArgs "config.toml" "region.json" false false) fresh_process =
  (1, mkProcess
        (mkLogger INFO
           [("ERROR", "Configuration error: Configuration file not found: config.toml")])
        []
        ["Error: Configuration file not found: config.toml"]).
Proof.
  split; [reflexivity|].
  exact (proj1 (@main_config_error ascii_runtime scenario_json_loads
                  scenario_yaml_parse scenario_fs scenario_detail
                  (mkArgs "config.toml" "region.json" false false) fresh_process
                  "Configuration file not found: config.toml" eq_refl)).
Defined.

Lemma main_matrix_error_witness :
  load_config scenario_json_loads scenario_yaml_parse scenario_fs "conf/app.JSON"
    = Return (VDict []) /\
  load_compatibility_matrix scenario_json_loads scenario_fs "missing.json" =
    Raise (ConfigError "Compatibility matrix file not found: missing.json") /\
  run (mkArgs "conf/app.JSON" "missing.json" false false) fresh_process =
  (1, mkProcess
        (mkLogger INFO
           [("ERROR",
             "Configuration error: Compatibility matrix file not found: missing.json")])
        []
        ["Error: Compatibility matrix file not found: missing.json"]).
Proof.
  split; [reflexivity|].
  split; [reflexivity|].
  exact (@main_matrix_error ascii_runtime scenario_json_loads scenario_yaml_parse
           scenario_fs scenario_detail
           (mkArgs "conf/app.JSON" "missing.json" false false) fresh_process
           (VDict []) "Compatibility matrix file not found: missing.json"
           eq_refl eq_refl).
Defined.

Lemma main_wrong_shape_witness :
  load_config scenario_json_loads scenario_yaml_parse scenario_fs "conf/app.JSON"
    = Return (VDict []) /\
  load_compatibility_matrix scenario_json_loads scenario_fs "eight.json"
    = Return (VInt 8) /\
  is_mapping (@VInt ascii_runtime 8) = false /\
  run (mkArgs "conf/app.JSON" "eight.json" false false) fresh_process =
  (1, mkProcess
        (mkLogger INFO [("ERROR", "An unexpected error occurred:")])
        []
        ["An unexpected error occurred: 'int' object has no attribute 'items'"]).
Proof.
  split; [reflexivity|].
  split; [reflexivity|].
  split; [reflexivity|].
  exact (proj1 (@main_wrong_shape ascii_runtime scenario_json_loads
                  scenario_yaml_parse scenario_fs scenario_detail
                  (mkArgs "conf/app.JSON" "eight.json" false false) fresh_process
                  (VDict []) (VInt 8) eq_refl eq_refl) eq_refl).
Defined.

Lemma main_empty_matrix_witness :
  load_config scenario_json_loads scenario_yaml_parse scenario_fs "empty.yaml"
    = Return VNone /\
  load_compatibility_matrix scenario_json_loads scenario_fs "conf/app.JSON"
    = Return (VDict []) /\
  run (mkArgs "empty.yaml" "conf/app.JSON" false false) fresh_process =
  (0, mkProcess basicConfig
        ["Configuration is valid according to the compatibility matrix."] []).
Proof.
  split; [reflexivity|].
  split; [reflexivity|].
  exact (@main_empty_matrix ascii_runtime scenario_json_loads scenario_yaml_parse
           scenario_fs scenario_detail
           (mkArgs "empty.yaml" "conf/app.JSON" false false) fresh_process
           VNone eq_refl eq_refl).
Defined.


Lemma main_undecodable_config_witness :
  scenario_fs "binary.json" = Return (Raise UnicodeDecodeError) /\
  lower (snd (splitext "binary.json")) = ".json" /\
  load_config scenario_json_loads scenario_yaml_parse scenario_fs "binary.json" =
    Raise (Builtin UnicodeDecodeError) /\
  fst (run (mkArgs "binary.json" "region.json" false false) fresh_process) = 1.
Proof.
  split; [reflexivity|]. split; [reflexivity|].
  destruct (@main_undecodable_config ascii_runtime scenario_json_loads
              scenario_yaml_parse scenario_fs scenario_detail
              (mkArgs "binary.json" "region.json" false false) fresh_process
              eq_refl eq_refl) as [Hload Hrun].
  split; [exact Hload|].
  unfold run. rewrite Hrun. reflexivity.
Defined.


(** C9 as stated fails: on a disk where [notes.txt] is a regular file, the
    path [notes.txt/x.toml] does not exist, and [open] raises
    [NotADirectoryError], which [load_config] reports as an OS error and
    not as a file that was not found. *)
Lemma C9_missing_under_a_file :
  path_exists sample_disk "notes.txt/x.toml" = false /\
  load_config scenario_json_loads scenario_yaml_parse (open_on sample_disk)
    "notes.txt/x.toml" =
    Raise (ConfigError
             "OS error when opening file: notes.txt/x.toml. [Errno 20] Not a directory: 'notes.txt/x.toml'") /\
  load_config scenario_json_loads scenario_yaml_parse (open_on sample_disk)
    "notes.txt/x.toml" <>
    Raise (ConfigError ("Configuration file not found: " ++ "notes.txt/x.toml")).
Proof.
  split; [reflexivity|]. split; [reflexivity|].
  intros H. vm_compute in H. discriminate.
Qed.

(** C10 as stated fails: the readable path [conf/.JSON] ends in [.JSON],
    but its file name is all extension-less for [os.path.splitext], and
    [load_config] refuses it as an unsupported file type. *)
Lemma C10_hidden_file_refused :
  ends_with ".JSON" "conf/.JSON" = true /\
  open_on sample_disk "conf/.JSON" = Return (Return "{}") /\
  snd (splitext "conf/.JSON") = "" /\
  load_config scenario_json_loads scenario_yaml_parse (open_on sample_disk)
    "conf/.JSON" = Raise unsupported_format.
Proof. repeat split. Qed.

End FurtherScenarios.
